(** * zkLogin client: workflow orchestrator, stores and notification bus

    A shallow embedding of the TypeScript sources
      lib/utils/index.ts      (token decoding, epoch window, balance lookup, ...)
      lib/storage             (BrowserStorage, BrowserSessionStorage, STORAGE_KEYS)
      lib/providers/index.ts  (OAuth provider, callback parsing)
      lib/client              (EventEmitter, ZkLoginClient)
    followed by the properties of the workflow that the specification states.

    Conventions of the embedding.
    - A JavaScript exception is a value of type [exn]; a computation that may
      throw returns a [result].
    - Methods of the client are computations in the monad [M]: they read and
      write the client's world (its state object, the two browser stores, the
      listener table) and may throw; what was written before a throw stays
      written, as in JavaScript.
    - An [async] method is split at its [await]: [*_begin] runs the
      synchronous prefix and leaves a [Pending] request in flight, [*_resume]
      is the continuation applied to the answer of the external collaborator.
      Between the two any other method may run.
    - External collaborators (chain RPC, salt service, prover, faucet, the
      JWT/JSON/URL codecs and the key library) are not part of the repository:
      codecs are fields of a [Platform] record, answers of remote services and
      clock readings are arguments of the continuation that consumes them.
    - JavaScript numbers that occur here hold integers (epochs, step
      numbers, millisecond clocks, NumericDate claims) and are modelled in
      [Z]. The epoch arithmetic of step 1 rounds as doubles do
      ([Number_round]); step numbers are below 8; a token's [exp] is a whole
      number of seconds whose thousandfold stays below 2^53, where the
      arithmetic of [decodeJwtToken] is exact.
    - A configuration's optional fields are either absent or set to a value
      of their type; a field that is present and [undefined] is outside the
      type [ZkLoginConfig] of the model.
    - Objects used as tables inherit from their prototypes: the listener
      table of [EventEmitter] is a plain object, so events named after a
      member of [Object.prototype] find that member ([inherited]); a browser
      store is a [Storage] object, so a record keyed by the name of a member
      of its prototypes is not among its [Object.keys] ([shadowed]).
    - Writes to the browser stores always succeed (no quota errors).
    - A listener may subscribe and unsubscribe listeners while an event is
      being delivered; it does not publish events or call the client's
      methods from there.
    - [debug()] only writes to the console and is left out. *)

From Stdlib Require Import ZArith String Ascii List Bool Lia.
From stdpp Require Import base option list gmap strings fin_maps.
Import ListNotations.

Set Warnings "-register-all".
Local Open Scope Z_scope.
Local Open Scope string_scope.

(* ===================================================================== *)
(** ** Exceptions and results *)
(* ===================================================================== *)

(** Values that are thrown. [ZkLoginError] is the class of lib/utils: a
    message, an optional code and an optional step. [Foreign] is whatever an
    external collaborator throws or rejects with, kept as its string
    rendering. *)
Inductive exn : Type :=
| JsError (message : string)
| ZkLoginError (message : string) (code : option string) (step : option Z)
| Foreign (rendering : string).

(** [`${error}`] in a template string. *)
Definition render (e : exn) : string :=
  match e with
  | JsError m => "Error: " +:+ m
  | ZkLoginError m _ _ => "ZkLoginError: " +:+ m
  | Foreign r => r
  end.

Inductive result (A : Type) : Type :=
| Ok (a : A)
| Throw (e : exn).
Arguments Ok {A} a.
Arguments Throw {A} e.

Definition is_ok {A} (r : result A) : bool :=
  match r with Ok _ => true | Throw _ => false end.

(* ===================================================================== *)
(** ** JavaScript numbers *)
(* ===================================================================== *)

(** A JavaScript number that holds an integer is kept as that integer. Such
    numbers are binary64 doubles: every integer up to [2^53] in magnitude is
    one, and beyond that only the multiples of a power of two are.
    [Number_round z] is the double nearest to the integer [z], ties going to
    the even significand; it is what [Number(text)] gives for the decimal
    text of [z] and what an addition or a multiplication gives when its
    exact result is [z] (magnitudes below [2^1024]). *)
Definition Number_round (z : Z) : Z :=
  let a := Z.abs z in
  if (a <=? 2 ^ 53)%Z then z
  else
    let e := Z.log2 a - 52 in
    let q := Z.shiftr a e in
    let r := a - Z.shiftl q e in
    let half := Z.shiftl 1 (e - 1) in
    let q' := if (r <? half)%Z then q
              else if (half <? r)%Z then q + 1
                   else if Z.even q then q else q + 1 in
    Z.sgn z * Z.shiftl q' e.

(* ===================================================================== *)
(** ** JSON values *)
(* ===================================================================== *)

(** What [JSON.parse] produces and what the remote services answer. Numbers
    are kept as integers: the client only tests them for truthiness. *)
Inductive json : Type :=
| JNull
| JBool (b : bool)
| JNum (n : Z)
| JStr (s : string)
| JArr (items : list json)
| JObj (props : list (string * json)).

(** JavaScript truthiness, as used by [if (x)] and [!x]. *)
Definition truthy (v : json) : bool :=
  match v with
  | JNull => false
  | JBool b => b
  | JNum n => negb (n =? 0)%Z
  | JStr s => negb (s =? "")%string
  | JArr _ => true
  | JObj _ => true
  end.

(** An optional field holding a JSON value: [None] is [undefined]. *)
Definition present (o : option json) : bool :=
  match o with Some v => truthy v | None => false end.

(** Truthiness of [string | null] and of [string | undefined]. *)
Definition nonempty (o : option string) : bool :=
  match o with Some s => negb (s =? "")%string | None => false end.

Fixpoint assoc (k : string) (ps : list (string * json)) : option json :=
  match ps with
  | [] => None
  | (k', v) :: ps' => if (k =? k')%string then Some v else assoc k ps'
  end.

Fixpoint assoc_set (k : string) (x : json) (ps : list (string * json))
  : list (string * json) :=
  match ps with
  | [] => [(k, x)]
  | (k', v) :: ps' =>
      if (k =? k')%string then (k, x) :: ps' else (k', v) :: assoc_set k x ps'
  end.

(** Property read [v.k] on a value that is neither [null] nor [undefined]:
    own properties of an object, [undefined] elsewhere. *)
Definition prop (k : string) (v : json) : option json :=
  match v with
  | JObj ps => assoc k ps
  | _ => None
  end.

(** Property write [v.k = x] in strict-mode code: an object takes the
    property, a primitive raises a TypeError. A named property on an array is
    outside JSON; the array keeps its items. *)
Definition assign (k : string) (x : json) (v : json) : result json :=
  match v with
  | JObj ps => Ok (JObj (assoc_set k x ps))
  | JArr items => Ok (JArr items)
  | _ => Throw (Foreign "TypeError: Cannot create property")
  end.

(** Object literal [{ k1: v1, ... }] whose values may be [undefined]:
    reading an [undefined] property and reading a missing one agree. *)
Fixpoint literal (fields : list (string * option json)) : list (string * json) :=
  match fields with
  | [] => []
  | (k, Some v) :: fs => (k, v) :: literal fs
  | (_, None) :: fs => literal fs
  end.

(** Destructuring [{ ... } = v] throws on [undefined] and [null] only. *)
Definition destructure (v : option json) : result json :=
  match v with
  | None => Throw (Foreign "TypeError: Cannot destructure property of undefined")
  | Some JNull => Throw (Foreign "TypeError: Cannot destructure property of null")
  | Some x => Ok x
  end.

(* ===================================================================== *)
(** ** lib/storage *)
(* ===================================================================== *)

(** The browser globals the library touches. [typeof window === 'undefined']
    is the case [None] of [option Window]. *)
Record Window : Type := mkWindow {
  localStorage : gmap string string;
  sessionStorage : gmap string string;
  location_href : string
}.

Definition Browser : Type := option Window.

Definition with_localStorage (f : gmap string string -> gmap string string)
  (w : Window) : Window :=
  mkWindow (f (localStorage w)) (sessionStorage w) (location_href w).

Definition with_sessionStorage (f : gmap string string -> gmap string string)
  (w : Window) : Window :=
  mkWindow (localStorage w) (f (sessionStorage w)) (location_href w).

Definition with_location_href (u : string) (w : Window) : Window :=
  mkWindow (localStorage w) (sessionStorage w) u.

(** The names of the members of [Storage.prototype] and of
    [Object.prototype]. A record stored under one of these names is shadowed
    by the member: [getItem] still reads it, but it is not a visible named
    property of the storage object. *)
Definition Storage_prototype_names : list string :=
  ["length"; "key"; "getItem"; "setItem"; "removeItem"; "clear"].

Definition Object_prototype_names : list string :=
  ["constructor"; "__defineGetter__"; "__defineSetter__"; "hasOwnProperty";
   "__lookupGetter__"; "__lookupSetter__"; "isPrototypeOf";
   "propertyIsEnumerable"; "toString"; "valueOf"; "__proto__";
   "toLocaleString"].

Definition shadowed (key : string) : bool :=
  existsb (String.eqb key) (Storage_prototype_names ++ Object_prototype_names)%list.

(** [Object.keys(storage)] on a [Storage] object: the stored keys that are
    not shadowed. *)
Definition Object_keys (m : gmap string string) : list string :=
  List.filter (fun key => negb (shadowed key)) (map_to_list m).*1.

(** [Array.from(map.keys())] on a [Map]: every key. *)
Definition Map_keys (m : gmap string string) : list string :=
  (map_to_list m).*1.

(** The loop of [clear()]: remove every key that starts with the prefix. *)
Definition clear_keys (prefix : string) (keys : list string)
  (m : gmap string string) : gmap string string :=
  foldl (fun acc key => if String.prefix prefix key then delete key acc else acc)
        m keys.

Module STORAGE_KEYS.
Definition EPHEMERAL_KEYPAIR := "ephemeral_keypair".
Definition MAX_EPOCH := "max_epoch".
Definition RANDOMNESS := "randomness".
Definition USER_SALT := "user_salt".
Definition JWT_TOKEN := "jwt_token".
Definition ZKLOGIN_ADDRESS := "zklogin_address".
Definition ZK_PROOF := "zk_proof".
End STORAGE_KEYS.

(** [class BrowserStorage]: the durable store, over [localStorage]. *)
Module BrowserStorage.
Definition getKey (prefix key : string) : string := prefix +:+ key.

Definition get (prefix key : string) (b : Browser) : option string :=
  match b with
  | None => None
  | Some w => localStorage w !! getKey prefix key
  end.

Definition set (prefix key value : string) (b : Browser) : Browser :=
  match b with
  | None => None
  | Some w => Some (with_localStorage (insert (getKey prefix key) value) w)
  end.

Definition remove (prefix key : string) (b : Browser) : Browser :=
  match b with
  | None => None
  | Some w => Some (with_localStorage (delete (getKey prefix key)) w)
  end.

Definition clear (prefix : string) (b : Browser) : Browser :=
  match b with
  | None => None
  | Some w =>
      let keys := Object_keys (localStorage w) in
      Some (with_localStorage (clear_keys prefix keys) w)
  end.
End BrowserStorage.

(** [class BrowserSessionStorage]: the ephemeral store, over
    [sessionStorage]. *)
Module BrowserSessionStorage.
Definition getKey (prefix key : string) : string := prefix +:+ key.

Definition get (prefix key : string) (b : Browser) : option string :=
  match b with
  | None => None
  | Some w => sessionStorage w !! getKey prefix key
  end.

Definition set (prefix key value : string) (b : Browser) : Browser :=
  match b with
  | None => None
  | Some w => Some (with_sessionStorage (insert (getKey prefix key) value) w)
  end.

Definition remove (prefix key : string) (b : Browser) : Browser :=
  match b with
  | None => None
  | Some w => Some (with_sessionStorage (delete (getKey prefix key)) w)
  end.

Definition clear (prefix : string) (b : Browser) : Browser :=
  match b with
  | None => None
  | Some w =>
      let keys := Object_keys (sessionStorage w) in
      Some (with_sessionStorage (clear_keys prefix keys) w)
  end.
End BrowserSessionStorage.

(* ===================================================================== *)
(** ** lib/types *)
(* ===================================================================== *)

(** [Ed25519Keypair], seen through [getSecretKey()] and [getPublicKey()]. *)
Record Ed25519Keypair : Type := mkKeypair {
  getSecretKey : string;
  getPublicKey : string
}.

Record EphemeralKeyPairState : Type := mkEphemeralKeyPairState {
  keyPair : Ed25519Keypair;
  maxEpoch : Z;
  randomness : string;
  nonce : string
}.

(** The [aud] claim is a string or an array of strings. *)
Inductive Audience : Type :=
| AudString (s : string)
| AudArray (l : list string).

(** [JwtPayload] of jwt-decode, with the claims the library reads. [exp] is
    a NumericDate in whole seconds. *)
Record JwtPayload : Type := mkJwtPayload {
  exp : option Z;
  sub : option string;
  aud : option Audience
}.

Record JwtState : Type := mkJwtState {
  token : string;
  payload : JwtPayload;
  isValid : bool;
  expiresAt : Z
}.

(** [ZkLoginState]. The salt, the address and the proof are assigned either
    from records built by the client or from [JSON.parse] of a persisted
    record, so they are JSON values. *)
Record ZkLoginState : Type := mkState {
  currentStep : Z;
  ephemeralKeyPair : option EphemeralKeyPairState;
  jwt : option JwtState;
  userSalt : option json;
  zkLoginAddress : option json;
  zkProof : option json;
  isReady : bool;
  error : option string
}.

Inductive ZkLoginProvider : Type :=
| google | facebook | twitch | apple | custom.

Record OAuthProviderConfig : Type := mkOAuthProviderConfig {
  oa_clientId : string;
  oa_redirectUri : string;
  oa_scope : string;
  oa_authUrl : string
}.

(** [ZkLoginConfig]: two required strings and the optional settings. *)
Record ZkLoginConfig : Type := mkConfig {
  network : option string;
  clientId : string;
  redirectUri : string;
  proverEndpoint : option string;
  faucetEndpoint : option string;
  storagePrefix : option string;
  getSaltUrl : option string;
  debug : option bool
}.

(** [Required<ZkLoginConfig>] *)
Record RequiredConfig : Type := mkRequiredConfig {
  r_network : string;
  r_clientId : string;
  r_redirectUri : string;
  r_proverEndpoint : string;
  r_faucetEndpoint : string;
  r_storagePrefix : string;
  r_getSaltUrl : string;
  r_debug : bool
}.

(** Arguments carried by the events of [ZkLoginEvents]. *)
Inductive EventArg : Type :=
| ArgStep (n : Z)
| ArgKeyPair (k : EphemeralKeyPairState)
| ArgJwt (j : JwtState)
| ArgJson (v : json)
| ArgMessage (m : string).

(* ===================================================================== *)
(** ** External codecs and libraries *)
(* ===================================================================== *)

(** Answer of an HTTP POST through axios: the response body, an axios error
    (its own message and, when the server answered, the [message] field of
    the response body), or any other thrown value. *)
Inductive HttpAnswer : Type :=
| HttpOk (data : json)
| HttpAxiosError (response_message : option string) (message : string)
| HttpOther (e : exn).

(** Pure functions of the platform and of the Sui and jwt-decode packages.
    A function that can throw returns a [result]. *)
Record Platform : Type := mkPlatform {
  jwtDecode : string -> result JwtPayload;
  JSON_parse : string -> result json;
  JSON_stringify : json -> string;
  parseInt : string -> Z;
  Number_toString : Z -> string;
  fromSecretKey : string -> result Ed25519Keypair;
  generateNonce : string -> Z -> string -> string;
  jwtToAddress : string -> option json -> result string;
  BigInt : option json -> result Z;
  genAddressSeed : Z -> string -> string -> option string -> result string;
  getExtendedEphemeralPublicKey : string -> result string;
  getZkLoginSignature : json -> option json -> Z -> string -> result string;
  URLSearchParams_get : string -> string -> option string;
  URLSearchParams_toString : list (string * string) -> string
}.

(* ===================================================================== *)
(** ** lib/utils *)
(* ===================================================================== *)

Module DEFAULT_CONFIG.
Definition proverEndpoint := "https://zkprover.deltax.online/v1".
Definition faucetEndpoint := "https://faucet-testnet.onelabs.cc/gas".
Definition storagePrefix := "zklogin_plus_".
Definition getSaltUrl := "https://salt.deltax.online/api/userSalt/Google".
End DEFAULT_CONFIG.

Section Utils.
Variable P : Platform.

(** [generateEphemeralKeyPair(maxEpoch)]; the fresh key pair and the fresh
    randomness are the entropy drawn by the call. *)
Definition generateEphemeralKeyPair (fresh : Ed25519Keypair)
  (fresh_randomness : string) (maxEpoch : Z) : EphemeralKeyPairState :=
  let keyPair := fresh in
  let randomness := fresh_randomness in
  let nonce := generateNonce P (getPublicKey keyPair) maxEpoch randomness in
  mkEphemeralKeyPairState keyPair maxEpoch randomness nonce.

(** [payload.exp ? ... : ...] tests a number: [undefined] and [0] are
    falsy. *)
Definition exp_truthy (p : JwtPayload) : bool :=
  match exp p with Some e => negb (e =? 0)%Z | None => false end.

(** [decodeJwtToken(token)], with [now] the value of [Date.now()].
    [now / 1000 < exp] on a whole number of seconds is [now < exp * 1000]. *)
Definition decodeJwtToken (now : Z) (token : string) : result JwtState :=
  match jwtDecode P token with
  | Ok payload =>
      let isValid :=
        if exp_truthy payload then (now <? default 0 (exp payload) * 1000)%Z
        else false in
      let expiresAt :=
        if exp_truthy payload then (default 0 (exp payload) * 1000)%Z
        else 0%Z in
      Ok (mkJwtState token payload isValid expiresAt)
  | Throw error => Throw (JsError ("Invalid JWT token: " +:+ render error))
  end.

(** Continuation of [generateUserSalt] after [axios.post]: the pattern
    [{data:{data:{salt}}}] applied to the response. *)
Definition generateUserSalt_resume (answer : result json)
  : result (option json) :=
  match answer with
  | Throw e => Throw e
  | Ok data =>
      match destructure (Some data) with
      | Throw e => Throw e
      | Ok d =>
          match destructure (prop "data" d) with
          | Throw e => Throw e
          | Ok inner => Ok (prop "salt" inner)
          end
      end
  end.

(** [!payload.aud] *)
Definition aud_falsy (a : option Audience) : bool :=
  match a with
  | None => true
  | Some (AudString s) => (s =? "")%string
  | Some (AudArray _) => false
  end.

(** [Array.isArray(aud) ? aud[0] : aud] *)
Definition aud_first (a : option Audience) : option string :=
  match a with
  | None => None
  | Some (AudString s) => Some s
  | Some (AudArray l) => head l
  end.

(** [generateZkLoginAddress(jwt, userSalt)]; the result is the object
    [{address, addressSeed}]. *)
Definition generateZkLoginAddress (jwt : string) (userSalt : option json)
  : result json :=
  let body : result json :=
    match jwtToAddress P jwt userSalt with
    | Throw e => Throw e
    | Ok address =>
        match jwtDecode P jwt with
        | Throw e => Throw e
        | Ok payload =>
            if negb (nonempty (sub payload)) || aud_falsy (aud payload)
            then Throw (JsError "JWT missing required claims (sub, aud)")
            else
              match BigInt P userSalt with
              | Throw e => Throw e
              | Ok salt =>
                  match genAddressSeed P salt "sub" (default "" (sub payload))
                          (aud_first (aud payload)) with
                  | Throw e => Throw e
                  | Ok addressSeed =>
                      Ok (JObj [("address", JStr address);
                                ("addressSeed", JStr addressSeed)])
                  end
              end
        end
    end in
  match body with
  | Ok r => Ok r
  | Throw error =>
      Throw (JsError ("Failed to generate zkLogin address: " +:+ render error))
  end.

Definition getExtendedPublicKey (publicKey : string) : result string :=
  getExtendedEphemeralPublicKey P publicKey.

(** Continuation of [requestZkProof] after [axios.post]. *)
Definition requestZkProof_resume (answer : HttpAnswer) : result json :=
  match answer with
  | HttpOk data => Ok data
  | HttpAxiosError response_message message =>
      let shown := if nonempty response_message
                   then default "" response_message else message in
      Throw (JsError ("ZK proof request failed: " +:+ shown))
  | HttpOther e => Throw e
  end.

Definition buildZkLoginSignature (zkProof : json) (maxEpoch : Z)
  (userSignature : string) (addressSeed : option json) : result string :=
  getZkLoginSignature P zkProof addressSeed maxEpoch userSignature.

(** [getCurrentEpoch]: [Number(systemState.epoch)], for the epoch the chain
    reported in decimal. *)
Definition getCurrentEpoch (reported : Z) : Z := Number_round reported.

(** [calculateMaxEpoch(currentEpoch)]: an addition of numbers. *)
Definition calculateMaxEpoch (currentEpoch : Z) : Z :=
  Number_round (currentEpoch + 10).

(** Continuation of [getAddressBalance] after [suiClient.getBalance]: the
    total balance, or ['0'] when the call threw. *)
Definition getAddressBalance (rpc : result string) : result string :=
  match rpc with
  | Ok totalBalance => Ok totalBalance
  | Throw _ => Ok "0"
  end.

(** Continuation of [requestFaucet] after [axios.post]. *)
Definition requestFaucet_resume (answer : HttpAnswer) : result unit :=
  match answer with
  | HttpOk _ => Ok tt
  | HttpAxiosError response_message message =>
      let shown := if nonempty response_message
                   then default "" response_message else message in
      Throw (JsError ("Faucet request failed: " +:+ shown))
  | HttpOther e => Throw e
  end.

(** [validateConfig(config)]: an empty string is falsy. *)
Definition validateConfig (config : ZkLoginConfig) : result unit :=
  if (clientId config =? "")%string then Throw (JsError "clientId is required")
  else if (redirectUri config =? "")%string
       then Throw (JsError "redirectUri is required")
       else Ok tt.
End Utils.

(* ===================================================================== *)
(** ** Computations with state and exceptions *)
(* ===================================================================== *)

(** A method body over a mutable store [St]: it returns the store as the
    method left it, together with its value or the exception it threw. *)
Definition M (St A : Type) : Type := St -> St * result A.

Definition ret {St A} (a : A) : M St A := fun s => (s, Ok a).

Definition throw {St A} (e : exn) : M St A := fun s => (s, Throw e).

Definition bind {St A B} (m : M St A) (k : A -> M St B) : M St B :=
  fun s =>
    match m s with
    | (s', Ok a) => k a s'
    | (s', Throw e) => (s', Throw e)
    end.

(** [try { body } catch (error) { handler }] *)
Definition try_catch {St A} (body : M St A) (handler : exn -> M St A) : M St A :=
  fun s =>
    match body s with
    | (s', Ok a) => (s', Ok a)
    | (s', Throw e) => handler e s'
    end.

Definition get {St} : M St St := fun s => (s, Ok s).

Definition modify {St} (f : St -> St) : M St unit := fun s => (f s, Ok tt).

Definition lift {St A} (r : result A) : M St A := fun s => (s, r).

(** Calling an [async] method without awaiting it: its effects happen, its
    promise (fulfilled or rejected) is dropped. *)
Definition fire {St A} (m : M St A) : M St unit := fun s => (fst (m s), Ok tt).

Declare Scope m_scope.
Delimit Scope m_scope with M.
Notation "'let*' x ':=' m 'in' k" := (bind m (fun x => k))
  (at level 10, x name, m at level 100, k at level 200) : m_scope.
Notation "m '>>' k" := (bind m (fun _ => k))
  (at level 90, right associativity) : m_scope.

(* ===================================================================== *)
(** ** lib/providers *)
(* ===================================================================== *)

(** [Partial<OAuthProviderConfig>] *)
Record PartialOAuthConfig : Type := mkPartialOAuthConfig {
  p_clientId : option string;
  p_redirectUri : option string;
  p_scope : option string;
  p_authUrl : option string
}.

Definition OAUTH_PROVIDERS (provider : ZkLoginProvider) : PartialOAuthConfig :=
  match provider with
  | google =>
      mkPartialOAuthConfig None None (Some "openid")
        (Some "https://accounts.google.com/o/oauth2/v2/auth")
  | facebook =>
      mkPartialOAuthConfig None None (Some "openid")
        (Some "https://www.facebook.com/v18.0/dialog/oauth")
  | twitch =>
      mkPartialOAuthConfig None None (Some "openid")
        (Some "https://id.twitch.tv/oauth2/authorize")
  | apple =>
      mkPartialOAuthConfig None None (Some "openid")
        (Some "https://appleid.apple.com/auth/authorize")
  | custom => mkPartialOAuthConfig None None (Some "openid") (Some "")
  end.

(** Object spread [{ ...base, ...over }] on the four fields. *)
Definition spread (base : OAuthProviderConfig) (over : PartialOAuthConfig)
  : OAuthProviderConfig :=
  mkOAuthProviderConfig
    (default (oa_clientId base) (p_clientId over))
    (default (oa_redirectUri base) (p_redirectUri over))
    (default (oa_scope base) (p_scope over))
    (default (oa_authUrl base) (p_authUrl over)).

Definition provider_name (provider : ZkLoginProvider) : string :=
  match provider with
  | google => "google" | facebook => "facebook" | twitch => "twitch"
  | apple => "apple" | custom => "custom"
  end.

Record OAuthProvider : Type := mkOAuthProvider {
  op_provider : ZkLoginProvider;
  op_config : OAuthProviderConfig
}.

(** [new OAuthProvider(provider, clientId, redirectUri, customConfig)] *)
Definition createOAuthProvider (provider : ZkLoginProvider)
  (clientId redirectUri : string) (customConfig : PartialOAuthConfig)
  : result OAuthProvider :=
  let baseConfig := OAUTH_PROVIDERS provider in
  let config :=
    spread (spread (mkOAuthProviderConfig clientId redirectUri "openid" "")
                   baseConfig) customConfig in
  if (oa_authUrl config =? "")%string
  then Throw (JsError ("Invalid provider: " +:+ provider_name provider))
  else Ok (mkOAuthProvider provider config).

(** [URLSearchParams.set] on the list of pairs: the first entry of that name
    takes the value and later ones go, a new name is appended. *)
Fixpoint params_set (k v : string) (ps : list (string * string))
  : list (string * string) :=
  match ps with
  | [] => [(k, v)]
  | (k', v') :: ps' =>
      if (k =? k')%string
      then (k, v) :: List.filter (fun kv => negb (fst kv =? k)%string) ps'
      else (k', v') :: params_set k v ps'
  end.

Section Providers.
Variable P : Platform.

Definition buildAuthUrl (o : OAuthProvider) (nonce : string)
  (state : option string) : string :=
  let params :=
    [("client_id", oa_clientId (op_config o));
     ("redirect_uri", oa_redirectUri (op_config o));
     ("response_type", "id_token");
     ("scope", if (oa_scope (op_config o) =? "")%string then "openid"
               else oa_scope (op_config o));
     ("nonce", nonce)] in
  let params :=
    if nonempty state then params_set "state" (default "" state) params
    else params in
  let params :=
    match op_provider o with
    | apple => params_set "response_mode" "form_post" params
    | facebook => params_set "response_type" "code id_token" params
    | _ => params
    end in
  oa_authUrl (op_config o) +:+ "?" +:+ URLSearchParams_toString P params.

(** [redirect(nonce, state)]: assigns [window.location.href]; without a
    window the global is not defined. *)
Definition redirect (o : OAuthProvider) (nonce : string)
  (state : option string) : M Browser unit :=
  fun b =>
    let authUrl := buildAuthUrl o nonce state in
    match b with
    | Some w => (Some (with_location_href authUrl w), Ok tt)
    | None => (None, Throw (Foreign "ReferenceError: window is not defined"))
    end.

(** [s.split(sep)] for a one-character separator. *)
Fixpoint split_on (sep : ascii) (s : string) : list string :=
  match s with
  | EmptyString => [EmptyString]
  | String c s' =>
      if Ascii.eqb c sep then EmptyString :: split_on sep s'
      else match split_on sep s' with
           | h :: t => String c h :: t
           | [] => [String c EmptyString]
           end
  end.

Record OAuthCallback : Type := mkOAuthCallback {
  cb_id_token : option string;
  cb_access_token : option string;
  cb_state : option string;
  cb_error : option string
}.

(** [a || b || undefined] on strings. *)
Definition first_nonempty (a b : option string) : option string :=
  if nonempty a then a else if nonempty b then b else None.

Definition parseOAuthCallback (url : option string) (b : Browser)
  : OAuthCallback :=
  let targetUrl :=
    if nonempty url then default "" url
    else match b with Some w => location_href w | None => "" end in
  let hash := default "" (split_on "#"%char targetUrl !! 1%nat) in
  let search :=
    match split_on "?"%char targetUrl !! 1%nat with
    | Some q => default "" (split_on "#"%char q !! 0%nat)
    | None => ""
    end in
  let both k :=
    first_nonempty (URLSearchParams_get P hash k)
                   (URLSearchParams_get P search k) in
  mkOAuthCallback (both "id_token") (both "access_token")
                  (both "state") (both "error").

Definition validateOAuthCallback (params : OAuthCallback) : result unit :=
  if nonempty (cb_error params)
  then Throw (JsError ("OAuth error: " +:+ default "" (cb_error params)))
  else if negb (nonempty (cb_id_token params))
       then Throw (JsError "No id_token received from OAuth provider")
       else Ok tt.
End Providers.

(* ===================================================================== *)
(** ** lib/client: EventEmitter *)
(* ===================================================================== *)

(** A call a listener makes on the emitter while it runs. *)
Inductive EmitterCall (L : Type) : Type :=
| CallOn (event : string) (listener : L)
| CallOff (event : string) (listener : L).
Arguments CallOn {L} event listener.
Arguments CallOff {L} event listener.

Section EventEmitter.
Context {Arg S : Type}.

(** A registered listener: its identity (listeners are compared by
    reference), its body, which runs over the observers' own state [S] and
    may throw, and the [on] and [off] calls it makes on the emitter while it
    runs. A listener does not call [emit] or the client's methods. *)
Inductive Listener : Type :=
| mkListener (lid : nat) (call : list Arg -> M S unit)
             (during : list Arg -> S -> list (EmitterCall Listener)).

Definition lid (l : Listener) : nat :=
  match l with mkListener i _ _ => i end.

Definition call (l : Listener) : list Arg -> M S unit :=
  match l with mkListener _ c _ => c end.

Definition during (l : Listener) : list Arg -> S -> list (EmitterCall Listener) :=
  match l with mkListener _ _ d => d end.

(** The emitter object, the state its listeners act on, and what
    [console.error] received. *)
Record Bus : Type := mkBus {
  listeners : gmap string (list Listener);
  observers : S;
  console_error : list (string * exn)
}.

Definition with_listeners (f : gmap string (list Listener) ->
                               gmap string (list Listener)) (b : Bus) : Bus :=
  mkBus (f (listeners b)) (observers b) (console_error b).

(** The table [listeners] is a plain object [{}]. Under the name of a member
    of [Object.prototype], [this.listeners[event]] is that member: truthy,
    and not an array. *)
Definition inherited (event : string) : bool :=
  existsb (String.eqb event) Object_prototype_names.

(** [array.indexOf(listener)], [None] for [-1]. *)
Fixpoint indexOf (l : Listener) (ls : list Listener) : option nat :=
  match ls with
  | [] => None
  | l' :: ls' =>
      if Nat.eqb (lid l) (lid l') then Some 0%nat
      else match indexOf l ls' with
           | Some i => Some (Datatypes.S i)
           | None => None
           end
  end.

Definition on (event : string) (listener : Listener) : M Bus unit :=
  fun b =>
    if inherited event
    then (b, Throw (Foreign "TypeError: this.listeners[event].push is not a function"))
    else
      let b := match listeners b !! event with
               | None => with_listeners (insert event []) b
               | Some _ => b
               end in
      (with_listeners
         (insert event (default [] (listeners b !! event) ++ [listener])%list) b,
       Ok tt).

Definition off (event : string) (listener : Listener) : M Bus unit :=
  fun b =>
    if inherited event
    then (b, Throw (Foreign "TypeError: this.listeners[event].indexOf is not a function"))
    else
      match listeners b !! event with
      | None => (b, Ok tt)
      | Some ls =>
          match indexOf listener ls with
          | Some index => (with_listeners (insert event (delete index ls)) b, Ok tt)
          | None => (b, Ok tt)
          end
      end.

(** A call made by a running listener; what it throws is the listener's
    business. *)
Definition emitter_call (c : EmitterCall Listener) (b : Bus) : Bus :=
  match c with
  | CallOn event listener => fst (on event listener b)
  | CallOff event listener => fst (off event listener b)
  end.

(** The listener runs on the observers' state and makes its calls on the
    emitter. *)
Definition invoke (listener : Listener) (args : list Arg) : M Bus unit :=
  fun b =>
    let (s', r) := call listener args (observers b) in
    let b' := foldl (fun acc c => emitter_call c acc) b
                    (during listener args (observers b)) in
    (mkBus (listeners b') s' (console_error b'), r).

Definition console_error_log (message : string) (error : exn) : M Bus unit :=
  modify (fun b => mkBus (listeners b) (observers b)
                         (console_error b ++ [(message, error)])%list).

(** [array.forEach] on the array of [event]: the length is read once, and
    each index below it is visited if the array, as it is by then, still has
    it. [n] indices are left to visit, from [k]. *)
Fixpoint forEach_live (n k : nat) (event : string) (args : list Arg) (b : Bus)
  : Bus :=
  match n with
  | O => b
  | Datatypes.S n' =>
      let b' :=
        match default [] (listeners b !! event) !! k with
        | Some listener =>
            fst (try_catch (invoke listener args)
                   (fun error =>
                      console_error_log
                        ("Error in event listener for " +:+ event +:+ ":")
                        error) b)
        | None => b
        end in
      forEach_live n' (Datatypes.S k) event args b'
  end.

Definition emit (event : string) (args : list Arg) : M Bus unit :=
  fun b =>
    if inherited event
    then (b, Throw (Foreign "TypeError: this.listeners[event].forEach is not a function"))
    else
      match listeners b !! event with
      | None => (b, Ok tt)
      | Some ls => (forEach_live (length ls) 0 event args b, Ok tt)
      end.

(** What [on] and [off] do to the entry of an event in the table. *)
Definition entry_after_on (l : Listener)
  (entry : option (list Listener)) : option (list Listener) :=
  Some (default [] entry ++ [l])%list.

Definition entry_after_off (l : Listener)
  (entry : option (list Listener)) : option (list Listener) :=
  match entry with
  | Some ls => match indexOf l ls with
               | Some index => Some (delete index ls)
               | None => Some ls
               end
  | None => None
  end.




End EventEmitter.
Arguments Listener : clear implicits.
Arguments Bus : clear implicits.
Arguments mkListener {Arg S} lid call during.

(* ===================================================================== *)
(** ** lib/client: ZkLoginClient *)
(* ===================================================================== *)

Definition with_currentStep (n : Z) (s : ZkLoginState) : ZkLoginState :=
  mkState n (ephemeralKeyPair s) (jwt s) (userSalt s) (zkLoginAddress s)
          (zkProof s) (isReady s) (error s).

Definition with_ephemeralKeyPair (k : EphemeralKeyPairState) (s : ZkLoginState)
  : ZkLoginState :=
  mkState (currentStep s) (Some k) (jwt s) (userSalt s) (zkLoginAddress s)
          (zkProof s) (isReady s) (error s).

Definition with_jwt (j : JwtState) (s : ZkLoginState) : ZkLoginState :=
  mkState (currentStep s) (ephemeralKeyPair s) (Some j) (userSalt s)
          (zkLoginAddress s) (zkProof s) (isReady s) (error s).

Definition with_userSalt (v : json) (s : ZkLoginState) : ZkLoginState :=
  mkState (currentStep s) (ephemeralKeyPair s) (jwt s) (Some v)
          (zkLoginAddress s) (zkProof s) (isReady s) (error s).

Definition with_zkLoginAddress (v : json) (s : ZkLoginState) : ZkLoginState :=
  mkState (currentStep s) (ephemeralKeyPair s) (jwt s) (userSalt s) (Some v)
          (zkProof s) (isReady s) (error s).

Definition with_zkProof (v : json) (s : ZkLoginState) : ZkLoginState :=
  mkState (currentStep s) (ephemeralKeyPair s) (jwt s) (userSalt s)
          (zkLoginAddress s) (Some v) (isReady s) (error s).

Definition with_isReady (b : bool) (s : ZkLoginState) : ZkLoginState :=
  mkState (currentStep s) (ephemeralKeyPair s) (jwt s) (userSalt s)
          (zkLoginAddress s) (zkProof s) b (error s).

Definition with_error (m : string) (s : ZkLoginState) : ZkLoginState :=
  mkState (currentStep s) (ephemeralKeyPair s) (jwt s) (userSalt s)
          (zkLoginAddress s) (zkProof s) (isReady s) (Some m).

(** The object literal [{ currentStep: 0, isReady: false }]. *)
Definition initial_state : ZkLoginState :=
  mkState 0 None None None None None false None.

(** [TransactionOptions]; a [bigint] amount is falsy when it is [0n]. *)
Record TransactionOptions : Type := mkTransactionOptions {
  recipient : option string;
  amount : option Z;
  transactionData : option json
}.

Inductive Commands : Type :=
| Transfer (coin : Z) (recipient : string)
| Provided (data : json).

(** A transaction block handed to the SDK: its commands and its sender. *)
Record Transaction : Type := mkTransaction {
  commands : Commands;
  sender : option json
}.

Definition MIST_PER_SUI : Z := 1000000000.

(** Requests in flight: an [async] method suspended at an [await], with the
    locals its continuation still uses. *)
Inductive Pending : Type :=
| AwaitEpoch
| AwaitSalt (jwtToken : option string)
| AwaitBalance (addressState : json)
| AwaitProof (jwt extendedPublicKey : string) (maxEpoch : Z)
             (randomness : string) (salt : option json)
| AwaitSign (txb : Transaction) (ephemeralKeyPair : EphemeralKeyPairState)
            (zkProof zkLoginAddress : json)
| AwaitExecute (bytes zkLoginSignature : string)
| AwaitFaucet (address : option json)
| AwaitFaucetBalance (address : option json)
| AwaitRefreshBalance (address : option json).

Section Client.
Variable P : Platform.
Context {S : Type}.

(** The client object and what it acts on: its configuration and state, the
    browser globals, the listener table it inherits from [EventEmitter], the
    sequence of [emit] calls it has made, and its requests in flight. *)
Record World : Type := mkWorld {
  config : RequiredConfig;
  state : ZkLoginState;
  browser : Browser;
  bus : Bus EventArg S;
  emitted : list (string * list EventArg);
  inflight : list Pending
}.

Definition with_state (f : ZkLoginState -> ZkLoginState) (w : World) : World :=
  mkWorld (config w) (f (state w)) (browser w) (bus w) (emitted w) (inflight w).

Definition with_browser (f : Browser -> Browser) (w : World) : World :=
  mkWorld (config w) (state w) (f (browser w)) (bus w) (emitted w) (inflight w).

Definition with_bus (f : Bus EventArg S -> Bus EventArg S) (w : World) : World :=
  mkWorld (config w) (state w) (browser w) (f (bus w)) (emitted w) (inflight w).

Definition with_inflight (f : list Pending -> list Pending) (w : World) : World :=
  mkWorld (config w) (state w) (browser w) (bus w) (emitted w) (f (inflight w)).

(** A computation on the browser globals, run by the client. *)
Definition in_browser {A} (m : M Browser A) : M World A :=
  fun w =>
    let (b', r) := m (browser w) in
    (with_browser (fun _ => b') w, r).

Definition this_state : M World ZkLoginState := fun w => (w, Ok (state w)).

Definition set_state (f : ZkLoginState -> ZkLoginState) : M World unit :=
  modify (with_state f).

(** [this.storage] and [this.sessionStorage], both built on
    [config.storagePrefix]. *)
Definition storage_get (key : string) : M World (option string) :=
  fun w => (w, Ok (BrowserStorage.get (r_storagePrefix (config w)) key (browser w))).

Definition storage_set (key value : string) : M World unit :=
  fun w => (with_browser (BrowserStorage.set (r_storagePrefix (config w)) key value) w,
            Ok tt).

Definition storage_remove (key : string) : M World unit :=
  fun w => (with_browser (BrowserStorage.remove (r_storagePrefix (config w)) key) w,
            Ok tt).

Definition storage_clear : M World unit :=
  fun w => (with_browser (BrowserStorage.clear (r_storagePrefix (config w))) w,
            Ok tt).

Definition sessionStorage_get (key : string) : M World (option string) :=
  fun w => (w, Ok (BrowserSessionStorage.get (r_storagePrefix (config w)) key
                     (browser w))).

Definition sessionStorage_set (key value : string) : M World unit :=
  fun w => (with_browser
              (BrowserSessionStorage.set (r_storagePrefix (config w)) key value) w,
            Ok tt).

Definition sessionStorage_remove (key : string) : M World unit :=
  fun w => (with_browser
              (BrowserSessionStorage.remove (r_storagePrefix (config w)) key) w,
            Ok tt).

Definition sessionStorage_clear : M World unit :=
  fun w => (with_browser
              (BrowserSessionStorage.clear (r_storagePrefix (config w))) w,
            Ok tt).

(** [this.emit(event, ...args)]: the inherited [emit], recorded. *)
Definition this_emit (event : string) (args : list EventArg) : M World unit :=
  fun w =>
    let (b', r) := emit event args (bus w) in
    (mkWorld (config w) (state w) (browser w) b'
             (emitted w ++ [(event, args)])%list (inflight w), r).

(** An [await] on an external request: the method stops here. *)
Definition suspend (p : Pending) : M World Pending :=
  fun w => (with_inflight (fun l => (l ++ [p])%list) w, Ok p).

(** The request at position [i] is answered and leaves the ones in flight. *)
Definition settle (i : nat) (w : World) : World :=
  with_inflight (delete i) w.

(** Property read [o.k] where [o] may be [undefined] or [null]. *)
Definition member (k : string) (o : option json) : result (option json) :=
  match o with
  | None => Throw (Foreign "TypeError: Cannot read properties of undefined")
  | Some JNull => Throw (Foreign "TypeError: Cannot read properties of null")
  | Some v => Ok (prop k v)
  end.

(** [handleError(message, step)] *)
Definition handleError (message : string) (step : option Z) : M World unit :=
  (set_state (with_error message) >>
   match step with
   | Some n => set_state (with_currentStep n)
   | None => ret tt
   end >>
   this_emit "error" [ArgMessage message])%M.

(** The [catch] clause shared by the step methods: record, notify, and throw
    the step-tagged error. *)
Definition fail_step {A} (prefix code : string) (step : Z) (error : exn)
  : M World A :=
  let errorMsg := prefix +:+ render error in
  (handleError errorMsg (Some step) >>
   throw (ZkLoginError errorMsg (Some code) (Some step)))%M.

(** *** Step 1: [generateEphemeralKeyPair()] *)

Definition catch1 {A} (error : exn) : M World A :=
  fail_step "Failed to generate ephemeral key pair: "
            "KEYPAIR_GENERATION_FAILED" 1 error.

Definition generateEphemeralKeyPair_begin : M World Pending :=
  try_catch (suspend AwaitEpoch) catch1.

Definition generateEphemeralKeyPair_resume (epoch : result Z)
  (fresh : Ed25519Keypair) (fresh_randomness : string)
  : M World EphemeralKeyPairState :=
  try_catch
    (let* reported := lift epoch in
     let currentEpoch := getCurrentEpoch reported in
     let maxEpoch := calculateMaxEpoch currentEpoch in
     let keyPairState :=
       generateEphemeralKeyPair P fresh fresh_randomness maxEpoch in
     sessionStorage_set STORAGE_KEYS.EPHEMERAL_KEYPAIR
                        (getSecretKey (keyPair keyPairState)) >>
     sessionStorage_set STORAGE_KEYS.MAX_EPOCH (Number_toString P maxEpoch) >>
     sessionStorage_set STORAGE_KEYS.RANDOMNESS (randomness keyPairState) >>
     set_state (with_ephemeralKeyPair keyPairState) >>
     set_state (fun s => with_currentStep (Z.max (currentStep s) 1) s) >>
     this_emit "keypair:generated" [ArgKeyPair keyPairState] >>
     let* s := this_state in
     this_emit "step:changed" [ArgStep (currentStep s)] >>
     ret keyPairState)%M
    catch1.

(** *** Step 2: [redirectToOAuth(provider, state)] *)

Definition redirectToOAuth (provider : ZkLoginProvider)
  (oauth_state : option string) : M World unit :=
  try_catch
    (let* s := this_state in
     match ephemeralKeyPair s with
     | None => throw (JsError "Ephemeral key pair not generated yet")
     | Some k =>
         let* c := fun w => (w, Ok (config w)) in
         let* oauthProvider :=
           lift (createOAuthProvider provider (r_clientId c) (r_redirectUri c)
                   (mkPartialOAuthConfig None None None None)) in
         in_browser (redirect P oauthProvider (nonce k) oauth_state)
     end)%M
    (fail_step "Failed to redirect to OAuth: " "OAUTH_REDIRECT_FAILED" 2).

(** *** Step 4: [generateSalt()], step 5: [generateAddress()], step 6:
    [getZkProof()]. Each continuation starts the next step without awaiting
    it, so the methods are given from the last to the first. *)

Definition catch6 {A} (error : exn) : M World A :=
  fail_step "Failed to get ZK proof: " "ZK_PROOF_FAILED" 6 error.

Definition getZkProof_begin : M World Pending :=
  try_catch
    (let* s := this_state in
     match ephemeralKeyPair s with
     | None => throw (JsError "Ephemeral key pair not available")
     | Some k =>
         match jwt s with
         | None => throw (JsError "JWT not available")
         | Some j =>
             if negb (present (userSalt s))
             then throw (JsError "User salt not available")
             else
               let* extendedPublicKey :=
                 lift (getExtendedPublicKey P (getPublicKey (keyPair k))) in
               let* salt := lift (member "salt" (userSalt s)) in
               suspend (AwaitProof (token j) extendedPublicKey (maxEpoch k)
                                   (randomness k) salt)
         end
     end)%M
    catch6.

Definition getZkProof_resume (answer : HttpAnswer) : M World json :=
  try_catch
    (let* zkProof := lift (requestZkProof_resume answer) in
     sessionStorage_set STORAGE_KEYS.ZK_PROOF (JSON_stringify P zkProof) >>
     set_state (with_zkProof zkProof) >>
     set_state (fun s => with_currentStep (Z.max (currentStep s) 6) s) >>
     set_state (with_isReady true) >>
     this_emit "proof:received" [ArgJson zkProof] >>
     let* s := this_state in
     this_emit "step:changed" [ArgStep (currentStep s)] >>
     this_emit "ready" [] >>
     ret zkProof)%M
    catch6.

Definition catch5 {A} (error : exn) : M World A :=
  fail_step "Failed to generate address: " "ADDRESS_GENERATION_FAILED" 5 error.

Definition generateAddress_begin : M World Pending :=
  try_catch
    (let* s := this_state in
     match jwt s with
     | None => throw (JsError "JWT not available")
     | Some j =>
         if negb (present (userSalt s))
         then throw (JsError "User salt not generated")
         else
           let* salt := lift (member "salt" (userSalt s)) in
           let* addressState := lift (generateZkLoginAddress P (token j) salt) in
           suspend (AwaitBalance addressState)
     end)%M
    catch5.

Definition generateAddress_resume (addressState : json) (rpc : result string)
  : M World json :=
  try_catch
    (let* balance := lift (getAddressBalance rpc) in
     let* addressState := lift (assign "balance" (JStr balance) addressState) in
     storage_set STORAGE_KEYS.ZKLOGIN_ADDRESS (JSON_stringify P addressState) >>
     set_state (with_zkLoginAddress addressState) >>
     set_state (fun s => with_currentStep (Z.max (currentStep s) 5) s) >>
     this_emit "address:generated" [ArgJson addressState] >>
     let* s := this_state in
     this_emit "step:changed" [ArgStep (currentStep s)] >>
     fire getZkProof_begin >>
     ret addressState)%M
    catch5.

Definition catch4 {A} (error : exn) : M World A :=
  fail_step "Failed to generate salt: " "SALT_GENERATION_FAILED" 4 error.

Definition generateSalt_begin : M World Pending :=
  try_catch
    (let* jwtToken := sessionStorage_get STORAGE_KEYS.JWT_TOKEN in
     suspend (AwaitSalt jwtToken))%M
    catch4.

Definition generateSalt_resume (answer : result json) (now : Z) : M World json :=
  try_catch
    (let* salt := lift (generateUserSalt_resume answer) in
     let saltState :=
       JObj (literal [("salt", salt); ("createdAt", Some (JNum now))]) in
     storage_set STORAGE_KEYS.USER_SALT (JSON_stringify P saltState) >>
     set_state (with_userSalt saltState) >>
     set_state (fun s => with_currentStep (Z.max (currentStep s) 4) s) >>
     this_emit "salt:generated" [ArgJson saltState] >>
     let* s := this_state in
     this_emit "step:changed" [ArgStep (currentStep s)] >>
     fire generateAddress_begin >>
     ret saltState)%M
    catch4.

(** *** Step 3: [handleOAuthCallback(url)], with [now] read by
    [decodeJwtToken]. *)

Definition handleOAuthCallback (url : option string) (now : Z)
  : M World JwtState :=
  try_catch
    (let* params := fun w => (w, Ok (parseOAuthCallback P url (browser w))) in
     let* _ := lift (validateOAuthCallback params) in
     let id_token := default "" (cb_id_token params) in
     let* jwtState := lift (decodeJwtToken P now id_token) in
     sessionStorage_set STORAGE_KEYS.JWT_TOKEN id_token >>
     set_state (with_jwt jwtState) >>
     set_state (fun s => with_currentStep (Z.max (currentStep s) 3) s) >>
     this_emit "jwt:received" [ArgJwt jwtState] >>
     let* s := this_state in
     this_emit "step:changed" [ArgStep (currentStep s)] >>
     fire generateSalt_begin >>
     ret jwtState)%M
    (fail_step "Failed to handle OAuth callback: " "OAUTH_CALLBACK_FAILED" 3).

(** *** Step 7: [executeTransaction(options)] *)

Definition catch7 {A} (error : exn) : M World A :=
  fail_step "Failed to execute transaction: " "TRANSACTION_EXECUTION_FAILED" 7
            error.

(** The transaction block built from the options. *)
Definition build_commands (options : TransactionOptions) : Commands :=
  if nonempty (recipient options) &&
     match amount options with Some a => negb (a =? 0)%Z | None => false end
  then Transfer (default 0 (amount options)) (default "" (recipient options))
  else if present (transactionData options)
       then Provided (default JNull (transactionData options))
       else Transfer (MIST_PER_SUI / 1)
              "0x23bf8c3d7d2d55f8b78a72e3ee2d53a849c9db976ac5e8142e3ee12be4cf81d6".

(** [built] is what building the transaction block did ([new Transaction],
    [splitCoins], [transferObjects], [setSender]): it returned, or one of the
    calls threw. *)
Definition executeTransaction_begin (options : TransactionOptions)
  (built : result unit) : M World Pending :=
  try_catch
    (let* s := this_state in
     if negb (isReady s)
     then throw (JsError "ZkLogin not ready. Complete all steps first.")
     else
       match ephemeralKeyPair s, zkProof s, zkLoginAddress s with
       | Some k, Some proof, Some addr =>
           if negb (truthy proof) || negb (truthy addr)
           then throw (JsError "Missing required state for transaction execution")
           else
             let txb := build_commands options in
             let* address := lift (member "address" (Some addr)) in
             lift built >>
             suspend (AwaitSign (mkTransaction txb address) k proof addr)
       | _, _, _ =>
           throw (JsError "Missing required state for transaction execution")
       end)%M
    catch7.

Definition executeTransaction_signed (k : EphemeralKeyPairState)
  (proof addr : json) (signed : result (string * string)) : M World Pending :=
  try_catch
    (let* bytes_signature := lift signed in
     let bytes := fst bytes_signature in
     let userSignature := snd bytes_signature in
     let* addressSeed := lift (member "addressSeed" (Some addr)) in
     let* zkLoginSignature :=
       lift (buildZkLoginSignature P proof (maxEpoch k) userSignature
               addressSeed) in
     suspend (AwaitExecute bytes zkLoginSignature))%M
    catch7.

Definition executeTransaction_executed (executeRes : result string)
  : M World string :=
  try_catch (let* digest := lift executeRes in ret digest)%M catch7.

(** *** [requestTestTokens()] and [refreshBalance()] *)

Definition catch_faucet {A} (error : exn) : M World A :=
  let errorMsg := "Failed to request test tokens: " +:+ render error in
  (handleError errorMsg None >>
   throw (ZkLoginError errorMsg (Some "FAUCET_REQUEST_FAILED") None))%M.

Definition requestTestTokens_begin : M World Pending :=
  try_catch
    (let* s := this_state in
     if negb (present (zkLoginAddress s))
     then throw (JsError "ZkLogin address not generated")
     else
       let* address := lift (member "address" (zkLoginAddress s)) in
       suspend (AwaitFaucet address))%M
    catch_faucet.

Definition requestTestTokens_funded (answer : HttpAnswer) : M World Pending :=
  try_catch
    (let* _ := lift (requestFaucet_resume answer) in
     let* s := this_state in
     let* address := lift (member "address" (zkLoginAddress s)) in
     suspend (AwaitFaucetBalance address))%M
    catch_faucet.

(** [this.state.zkLoginAddress.balance = balance] *)
Definition set_balance (balance : string) : M World unit :=
  (let* s := this_state in
   match zkLoginAddress s with
   | None => throw (Foreign "TypeError: Cannot set properties of undefined")
   | Some JNull => throw (Foreign "TypeError: Cannot set properties of null")
   | Some addr =>
       let* addr' := lift (assign "balance" (JStr balance) addr) in
       set_state (with_zkLoginAddress addr')
   end)%M.

Definition requestTestTokens_resume (rpc : result string) : M World unit :=
  try_catch
    (let* balance := lift (getAddressBalance rpc) in
     set_balance balance)%M
    catch_faucet.

Definition refreshBalance_begin : M World Pending :=
  (let* s := this_state in
   if negb (present (zkLoginAddress s))
   then throw (JsError "ZkLogin address not generated")
   else
     let* address := lift (member "address" (zkLoginAddress s)) in
     suspend (AwaitRefreshBalance address))%M.

Definition refreshBalance_resume (rpc : result string) : M World string :=
  (let* balance := lift (getAddressBalance rpc) in
   set_balance balance >>
   ret balance)%M.

(** *** [reset()] *)

Definition reset : M World unit :=
  (storage_clear >>
   sessionStorage_clear >>
   set_state (fun _ => initial_state) >>
   fire generateEphemeralKeyPair_begin)%M.

(** *** [restoreState()], with [now] read by [decodeJwtToken]. Its body is
    five blocks, one per persisted fragment, inside one [try]. *)

Definition restore_ephemeralKeyPair : M World unit :=
  (let* privateKey := sessionStorage_get STORAGE_KEYS.EPHEMERAL_KEYPAIR in
   let* maxEpochStr := sessionStorage_get STORAGE_KEYS.MAX_EPOCH in
   let* randomness := sessionStorage_get STORAGE_KEYS.RANDOMNESS in
   if nonempty privateKey && nonempty maxEpochStr && nonempty randomness
   then
     let* keyPair := lift (fromSecretKey P (default "" privateKey)) in
     let maxEpoch := parseInt P (default "" maxEpochStr) in
     set_state (with_ephemeralKeyPair
                  (mkEphemeralKeyPairState keyPair maxEpoch
                     (default "" randomness) "")) >>
     set_state (fun s => with_currentStep (Z.max (currentStep s) 1) s)
   else fire generateEphemeralKeyPair_begin)%M.

Definition restore_jwt (now : Z) : M World unit :=
  (let* jwtToken := sessionStorage_get STORAGE_KEYS.JWT_TOKEN in
   if nonempty jwtToken
   then try_catch
          (let* j := lift (decodeJwtToken P now (default "" jwtToken)) in
           set_state (with_jwt j) >>
           set_state (fun s => with_currentStep (Z.max (currentStep s) 3) s))
          (fun _ => sessionStorage_remove STORAGE_KEYS.JWT_TOKEN)
   else ret tt)%M.

Definition restore_userSalt : M World unit :=
  (let* userSaltStr := storage_get STORAGE_KEYS.USER_SALT in
   if nonempty userSaltStr
   then try_catch
          (let* v := lift (JSON_parse P (default "" userSaltStr)) in
           set_state (with_userSalt v) >>
           set_state (fun s => with_currentStep (Z.max (currentStep s) 4) s))
          (fun _ => storage_remove STORAGE_KEYS.USER_SALT)
   else ret tt)%M.

Definition restore_zkLoginAddress : M World unit :=
  (let* addressStr := storage_get STORAGE_KEYS.ZKLOGIN_ADDRESS in
   if nonempty addressStr
   then try_catch
          (let* v := lift (JSON_parse P (default "" addressStr)) in
           set_state (with_zkLoginAddress v) >>
           set_state (fun s => with_currentStep (Z.max (currentStep s) 5) s))
          (fun _ => storage_remove STORAGE_KEYS.ZKLOGIN_ADDRESS)
   else ret tt)%M.

Definition restore_zkProof : M World unit :=
  (let* zkProofStr := sessionStorage_get STORAGE_KEYS.ZK_PROOF in
   if nonempty zkProofStr
   then try_catch
          (let* v := lift (JSON_parse P (default "" zkProofStr)) in
           set_state (with_zkProof v) >>
           set_state (fun s => with_currentStep (Z.max (currentStep s) 6) s) >>
           set_state (with_isReady true))
          (fun _ => sessionStorage_remove STORAGE_KEYS.ZK_PROOF)
   else ret tt)%M.

Definition restoreState (now : Z) : M World unit :=
  try_catch
    (restore_ephemeralKeyPair >>
     restore_jwt now >>
     restore_userSalt >>
     restore_zkLoginAddress >>
     restore_zkProof)%M
    (fun _ => ret tt).

(** *** [new ZkLoginClient(config)] *)

(** The defaults, overridden by the fields the caller supplied. *)
Definition fill_config (c : ZkLoginConfig) : RequiredConfig :=
  mkRequiredConfig
    (default "devnet" (network c))
    (clientId c)
    (redirectUri c)
    (default DEFAULT_CONFIG.proverEndpoint (proverEndpoint c))
    (default DEFAULT_CONFIG.faucetEndpoint (faucetEndpoint c))
    (default DEFAULT_CONFIG.storagePrefix (storagePrefix c))
    (default DEFAULT_CONFIG.getSaltUrl (getSaltUrl c))
    (default false (debug c)).

(** The constructor, run in a browser [b] whose observers start in [s0], at
    clock reading [now]. *)
Definition construct (c : ZkLoginConfig) (b : Browser) (s0 : S) (now : Z)
  : result World :=
  match validateConfig c with
  | Throw e => Throw e
  | Ok _ =>
      let w := mkWorld (fill_config c) initial_state b (mkBus ∅ s0 []) [] [] in
      match restoreState now w with
      | (w', Ok _) => Ok w'
      | (_, Throw e) => Throw e
      end
  end.

(** *** Runs of the client *)

(** One thing happens to the client: a caller invokes a public method, or a
    request in flight is answered and its continuation runs. *)
Inductive step : World -> World -> Prop :=
| step_on event listener w :
    step w (with_bus (fun b => fst (on event listener b)) w)
| step_off event listener w :
    step w (with_bus (fun b => fst (off event listener b)) w)
| step_generateEphemeralKeyPair w :
    step w (fst (generateEphemeralKeyPair_begin w))
| step_redirectToOAuth provider oauth_state w :
    step w (fst (redirectToOAuth provider oauth_state w))
| step_handleOAuthCallback url now w :
    step w (fst (handleOAuthCallback url now w))
| step_generateSalt w :
    step w (fst (generateSalt_begin w))
| step_generateAddress w :
    step w (fst (generateAddress_begin w))
| step_getZkProof w :
    step w (fst (getZkProof_begin w))
| step_executeTransaction options built w :
    step w (fst (executeTransaction_begin options built w))
| step_requestTestTokens w :
    step w (fst (requestTestTokens_begin w))
| step_refreshBalance w :
    step w (fst (refreshBalance_begin w))
| step_reset w :
    step w (fst (reset w))
| step_epoch i epoch fresh fresh_randomness w :
    inflight w !! i = Some AwaitEpoch ->
    step w (fst (generateEphemeralKeyPair_resume epoch fresh fresh_randomness
                   (settle i w)))
| step_salt i jwtToken answer now w :
    inflight w !! i = Some (AwaitSalt jwtToken) ->
    step w (fst (generateSalt_resume answer now (settle i w)))
| step_balance i addressState rpc w :
    inflight w !! i = Some (AwaitBalance addressState) ->
    step w (fst (generateAddress_resume addressState rpc (settle i w)))
| step_proof i j pk e r salt answer w :
    inflight w !! i = Some (AwaitProof j pk e r salt) ->
    step w (fst (getZkProof_resume answer (settle i w)))
| step_signed i txb k proof addr signed w :
    inflight w !! i = Some (AwaitSign txb k proof addr) ->
    step w (fst (executeTransaction_signed k proof addr signed (settle i w)))
| step_executed i bytes signature executeRes w :
    inflight w !! i = Some (AwaitExecute bytes signature) ->
    step w (fst (executeTransaction_executed executeRes (settle i w)))
| step_funded i address answer w :
    inflight w !! i = Some (AwaitFaucet address) ->
    step w (fst (requestTestTokens_funded answer (settle i w)))
| step_faucet_balance i address rpc w :
    inflight w !! i = Some (AwaitFaucetBalance address) ->
    step w (fst (requestTestTokens_resume rpc (settle i w)))
| step_refreshed i address rpc w :
    inflight w !! i = Some (AwaitRefreshBalance address) ->
    step w (fst (refreshBalance_resume rpc (settle i w))).

(** The worlds a client can be in: what the constructor leaves, and what
    follows by steps. *)
Inductive reachable : World -> Prop :=
| reachable_construct c b s0 now w :
    construct c b s0 now = Ok w -> reachable w
| reachable_step w w' :
    reachable w -> step w w' -> reachable w'.

End Client.

(* ===================================================================== *)
(** ** lib/storage: MemoryStorage *)
(* ===================================================================== *)

(** [class MemoryStorage]: a private [Map] and a prefix. *)
Record MemoryStore : Type := mkMemoryStore {
  ms_storage : gmap string string;
  ms_prefix : string
}.

Module MemoryStorage.
(** [new MemoryStorage(prefix)], the prefix defaulting to ['zklogin_']. *)
Definition create (prefix : option string) : MemoryStore :=
  mkMemoryStore ∅ (default "zklogin_" prefix).

Definition getKey (m : MemoryStore) (key : string) : string :=
  ms_prefix m +:+ key.

(** [this.storage.get(k) || null]: a missing key and an empty value both
    give [null]. *)
Definition get (key : string) (m : MemoryStore) : option string :=
  match ms_storage m !! getKey m key with
  | Some v => if (v =? "")%string then None else Some v
  | None => None
  end.

Definition set (key value : string) (m : MemoryStore) : MemoryStore :=
  mkMemoryStore (insert (getKey m key) value (ms_storage m)) (ms_prefix m).

Definition remove (key : string) (m : MemoryStore) : MemoryStore :=
  mkMemoryStore (delete (getKey m key) (ms_storage m)) (ms_prefix m).

Definition clear (m : MemoryStore) : MemoryStore :=
  let keys := Map_keys (ms_storage m) in
  mkMemoryStore (clear_keys (ms_prefix m) keys (ms_storage m)) (ms_prefix m).
End MemoryStorage.

(** Calls made on a [MemoryStorage] object. *)
Inductive MemoryCall : Type :=
| MemorySet (key value : string)
| MemoryRemove (key : string)
| MemoryClear.

Definition memory_call (c : MemoryCall) (m : MemoryStore) : MemoryStore :=
  match c with
  | MemorySet key value => MemoryStorage.set key value m
  | MemoryRemove key => MemoryStorage.remove key m
  | MemoryClear => MemoryStorage.clear m
  end.

Definition memory_calls (cs : list MemoryCall) (m : MemoryStore) : MemoryStore :=
  foldl (fun acc c => memory_call c acc) m cs.

(* ===================================================================== *)
(** ** lib/utils: buildOAuthUrl *)
(* ===================================================================== *)

(** The providers [buildOAuthUrl] accepts. *)
Inductive KnownProvider : Type :=
| known_google | known_facebook | known_twitch | known_apple.

Definition baseUrls (provider : KnownProvider) : string :=
  match provider with
  | known_google => "https://accounts.google.com/o/oauth2/v2/auth"
  | known_facebook => "https://www.facebook.com/v18.0/dialog/oauth"
  | known_twitch => "https://id.twitch.tv/oauth2/authorize"
  | known_apple => "https://appleid.apple.com/auth/authorize"
  end.

Definition buildOAuthUrl (P : Platform) (provider : KnownProvider)
  (clientId redirectUri nonce : string) (state : option string) : string :=
  let params :=
    [("client_id", clientId);
     ("redirect_uri", redirectUri);
     ("response_type", "id_token");
     ("scope", "openid email");
     ("nonce", nonce)] in
  let params :=
    if nonempty state then params_set "state" (default "" state) params
    else params in
  baseUrls provider +:+ "?" +:+ URLSearchParams_toString P params.

(* ===================================================================== *)
(** ** Definitions used by the statements *)
(* ===================================================================== *)

(** [wp m Q w]: running [m] from [w] ends in a store and a result related
    by [Q]. *)
Definition wp {St A} (m : M St A) (Q : St -> result A -> Prop) (s : St) : Prop :=
  Q (fst (m s)) (snd (m s)).

(** What the two stores hold under a full key. *)
Definition stored_local (b : Browser) (k : string) : option string :=
  match b with Some w => localStorage w !! k | None => None end.

Definition stored_session (b : Browser) (k : string) : option string :=
  match b with Some w => sessionStorage w !! k | None => None end.

(** [isReady] has only been set together with the proof field. *)
Definition ready_has_proof (s : ZkLoginState) : Prop :=
  isReady s = true -> is_Some (zkProof s).

(** What a block of [restoreState] leaves alone: the configuration, the
    restored token, and the absence of an ephemeral record. *)
Definition keeps {S} (w w' : @World S) : Prop :=
  config w' = config w
  /\ jwt (state w') = jwt (state w)
  /\ forall k, stored_session (browser w) k = None ->
               stored_session (browser w') k = None.

(** The text [{"salt":"1","createdAt":0}], as [JSON.stringify] writes a
    salt record. *)
Definition dquote : string := String (ascii_of_nat 34) EmptyString.

Definition salt_record_text : string :=
  "{" +:+ dquote +:+ "salt" +:+ dquote +:+ ":" +:+ dquote +:+ "1" +:+ dquote
  +:+ "," +:+ dquote +:+ "createdAt" +:+ dquote +:+ ":0}".

Definition salt_record : json :=
  JObj [("salt", JStr "1"); ("createdAt", JNum 0)].

(** A platform for the examples. Its token decoder accepts the token
    ["good"], whose payload expires at second 100, and no other; its JSON
    parser accepts the salt record above, ["{}"] and ["null"], and no other;
    its key library accepts the secret key ["sk"] and no other. *)
Definition example_platform : Platform :=
  mkPlatform
    (fun t => if (t =? "good")%string
              then Ok (mkJwtPayload (Some 100) (Some "user") (Some (AudString "app")))
              else Throw (Foreign "InvalidTokenError: Invalid token specified"))
    (fun s => if (s =? salt_record_text)%string then Ok salt_record
              else if (s =? "{}")%string then Ok (JObj [])
                   else if (s =? "null")%string then Ok JNull
                        else Throw (Foreign "SyntaxError: Unexpected token"))
    (fun v => match v with JNull => "null" | _ => "{}" end)
    (fun _ => 0)
    (fun _ => "0")
    (fun s => if (s =? "sk")%string then Ok (mkKeypair "sk" "pk")
              else Throw (Foreign "Error: Invalid secret key"))
    (fun _ _ _ => "nonce")
    (fun _ _ => Ok "0xaddress")
    (fun _ => Ok 0)
    (fun _ _ _ _ => Ok "seed")
    (fun pk => Ok pk)
    (fun _ _ _ _ => Ok "signature")
    (fun _ _ => None)
    (fun _ => "").

Definition example_config : ZkLoginConfig :=
  mkConfig None "c1" "https://app/cb" None None None None None.

(** A browser whose two stores hold the given records and nothing else. *)
Definition example_browser (local session : list (string * string)) : Browser :=
  Some (mkWindow (list_to_map local) (list_to_map session) "https://app/").

(** The constructor in the example browser, with observers of type [unit],
    at clock 0. *)
Definition example_construct (local session : list (string * string))
  : result (@World unit) :=
  construct example_platform example_config (example_browser local session) tt 0.

Definition ok_value {A} (r : result A) : option A :=
  match r with Ok a => Some a | Throw _ => None end.

(** The seven step operations, each async one at each of its entry points:
    the call and the continuations after its awaits. *)
Inductive StepMethod : Type :=
| Step1_call
| Step1_epoch (epoch : result Z) (fresh : Ed25519Keypair)
              (fresh_randomness : string)
| Step2_call (provider : ZkLoginProvider) (oauth_state : option string)
| Step3_call (url : option string) (now : Z)
| Step4_call
| Step4_salt (answer : result json) (now : Z)
| Step5_call
| Step5_balance (addressState : json) (rpc : result string)
| Step6_call
| Step6_proof (answer : HttpAnswer)
| Step7_call (options : TransactionOptions) (built : result unit)
| Step7_signed (k : EphemeralKeyPairState) (proof addr : json)
               (signed : result (string * string))
| Step7_executed (executeRes : result string).

Definition step_number (m : StepMethod) : Z :=
  match m with
  | Step1_call | Step1_epoch _ _ _ => 1
  | Step2_call _ _ => 2
  | Step3_call _ _ => 3
  | Step4_call | Step4_salt _ _ => 4
  | Step5_call | Step5_balance _ _ => 5
  | Step6_call | Step6_proof _ => 6
  | Step7_call _ _ | Step7_signed _ _ _ _ | Step7_executed _ => 7
  end.

Definition step_code (m : StepMethod) : string :=
  match m with
  | Step1_call | Step1_epoch _ _ _ => "KEYPAIR_GENERATION_FAILED"
  | Step2_call _ _ => "OAUTH_REDIRECT_FAILED"
  | Step3_call _ _ => "OAUTH_CALLBACK_FAILED"
  | Step4_call | Step4_salt _ _ => "SALT_GENERATION_FAILED"
  | Step5_call | Step5_balance _ _ => "ADDRESS_GENERATION_FAILED"
  | Step6_call | Step6_proof _ => "ZK_PROOF_FAILED"
  | Step7_call _ _ | Step7_signed _ _ _ _ | Step7_executed _ =>
      "TRANSACTION_EXECUTION_FAILED"
  end.

(** Forget the value a method returns. *)
Definition void {St A} (m : M St A) : M St unit := bind m (fun _ => ret tt).

Definition run_step {S} (P : Platform) (m : StepMethod) : M (@World S) unit :=
  match m with
  | Step1_call => void generateEphemeralKeyPair_begin
  | Step1_epoch epoch fresh fresh_randomness =>
      void (generateEphemeralKeyPair_resume P epoch fresh fresh_randomness)
  | Step2_call provider oauth_state => redirectToOAuth P provider oauth_state
  | Step3_call url now => void (handleOAuthCallback P url now)
  | Step4_call => void generateSalt_begin
  | Step4_salt answer now => void (generateSalt_resume P answer now)
  | Step5_call => void (generateAddress_begin P)
  | Step5_balance addressState rpc =>
      void (generateAddress_resume P addressState rpc)
  | Step6_call => void (getZkProof_begin P)
  | Step6_proof answer => void (getZkProof_resume P answer)
  | Step7_call options built => void (executeTransaction_begin options built)
  | Step7_signed k proof addr signed =>
      void (executeTransaction_signed P k proof addr signed)
  | Step7_executed executeRes => void (executeTransaction_executed executeRes)
  end.

(** The two steps that check their preconditions on the state, and the
    check each makes. *)
Inductive GuardedStep : Type := Guarded5 | Guarded6.

Definition guard_holds (g : GuardedStep) (s : ZkLoginState) : bool :=
  match g with
  | Guarded5 => bool_decide (is_Some (jwt s)) && present (userSalt s)
  | Guarded6 =>
      bool_decide (is_Some (ephemeralKeyPair s))
        && bool_decide (is_Some (jwt s)) && present (userSalt s)
  end.

Definition guarded_call {S} (P : Platform) (g : GuardedStep)
  : M (@World S) Pending :=
  match g with
  | Guarded5 => generateAddress_begin P
  | Guarded6 => getZkProof_begin P
  end.

Definition guarded_number (g : GuardedStep) : Z :=
  match g with Guarded5 => 5 | Guarded6 => 6 end.

Definition guarded_code (g : GuardedStep) : string :=
  match g with
  | Guarded5 => "ADDRESS_GENERATION_FAILED"
  | Guarded6 => "ZK_PROOF_FAILED"
  end.

(** Worlds of the examples. [example_world] is what the constructor leaves
    in a browser with empty stores; [proof_only_world] and [salt_only_world]
    are what it leaves when the stores hold one record, a proof or a salt;
    [address_world] is a client that has its token, salt and address. *)
Definition example_world : @World unit :=
  mkWorld (fill_config example_config) initial_state (example_browser [] [])
          (mkBus ∅ tt []) [] [AwaitEpoch].

Definition proof_only_world : @World unit :=
  mkWorld (fill_config example_config)
          (mkState 6 None None None None (Some (JObj [])) true None)
          (example_browser [] [("zklogin_plus_zk_proof", "{}")])
          (mkBus ∅ tt []) [] [AwaitEpoch].

Definition salt_only_world : @World unit :=
  mkWorld (fill_config example_config)
          (mkState 4 None None (Some salt_record) None None false None)
          (example_browser [("zklogin_plus_user_salt", salt_record_text)] [])
          (mkBus ∅ tt []) [] [AwaitEpoch].

Definition address_world : @World unit :=
  mkWorld (fill_config example_config)
          (mkState 5 None
             (Some (mkJwtState "good"
                      (mkJwtPayload (Some 100) (Some "user")
                                    (Some (AudString "app")))
                      true 100000))
             (Some (JObj [("salt", JStr "1"); ("createdAt", JNum 0)]))
             (Some (JObj [("address", JStr "0xaddress");
                          ("addressSeed", JStr "seed");
                          ("balance", JStr "5")]))
             None false None)
          (example_browser [] []) (mkBus ∅ tt []) [] [].

(** Listeners of the examples: each appends its identity to a log and, when
    [throws] is set, then throws; none calls the emitter. *)
Definition logger (i : nat) (throws : bool) : Listener EventArg (list nat) :=
  mkListener i (fun _ log =>
                  ((log ++ [i])%list,
                   if throws then Throw (JsError "listener failed") else Ok tt))
             (fun _ _ => []).

Definition example_bus : Bus EventArg (list nat) :=
  fst (on "ready" (logger 3 false)
         (fst (on "ready" (logger 2 true)
                 (fst (on "ready" (logger 1 false) (mkBus ∅ [] [])))))).



(** A configuration with the empty string as storage prefix. *)
Definition empty_prefix_config : ZkLoginConfig :=
  mkConfig None "c1" "https://app/cb" None None (Some "") None None.

(** A second platform for the examples: as [example_platform], except that
    its JSON parser also accepts the text ["1"], that it prints the number
    17 as ["17"] and reads that text back as 17, and that it finds the token
    ["good"] under [id_token] in the parameter text ["id_token=good"]. *)
Definition reload_platform : Platform :=
  mkPlatform
    (jwtDecode example_platform)
    (fun s => if (s =? "1")%string then Ok (JNum 1)
              else JSON_parse example_platform s)
    (JSON_stringify example_platform)
    (fun s => if (s =? "17")%string then 17 else 0)
    (fun n => if (n =? 17)%Z then "17" else "0")
    (fromSecretKey example_platform)
    (generateNonce example_platform)
    (jwtToAddress example_platform)
    (BigInt example_platform)
    (genAddressSeed example_platform)
    (getExtendedEphemeralPublicKey example_platform)
    (getZkLoginSignature example_platform)
    (fun text name =>
       if ((text =? "id_token=good") && (name =? "id_token"))%string
       then Some "good" else None)
    (URLSearchParams_toString example_platform).

(** [address_world] with key material in its state. *)
Definition keyed_world : @World unit :=
  mkWorld (config address_world)
          (with_ephemeralKeyPair
             (mkEphemeralKeyPairState (mkKeypair "sk" "pk") 17 "r" "nonce")
             (state address_world))
          (browser address_world) (bus address_world) [] [].

(** [Object.values(STORAGE_KEYS)]: the keys under which the client keeps
    its records. *)
Definition client_keys : list string :=
  [STORAGE_KEYS.EPHEMERAL_KEYPAIR; STORAGE_KEYS.MAX_EPOCH;
   STORAGE_KEYS.RANDOMNESS; STORAGE_KEYS.USER_SALT; STORAGE_KEYS.JWT_TOKEN;
   STORAGE_KEYS.ZKLOGIN_ADDRESS; STORAGE_KEYS.ZK_PROOF].

(** The strings a string ends with. *)
Fixpoint suffixes (s : string) : list string :=
  s :: match s with
       | EmptyString => []
       | String _ s' => suffixes s'
       end.

(** From one state to a later one, whatever was present is still present:
    the sub-records, readiness and the recorded error. *)
Definition persists (s s' : ZkLoginState) : Prop :=
  (is_Some (ephemeralKeyPair s) -> is_Some (ephemeralKeyPair s'))
  /\ (is_Some (jwt s) -> is_Some (jwt s'))
  /\ (is_Some (userSalt s) -> is_Some (userSalt s'))
  /\ (is_Some (zkLoginAddress s) -> is_Some (zkLoginAddress s'))
  /\ (is_Some (zkProof s) -> is_Some (zkProof s'))
  /\ (isReady s = true -> isReady s' = true)
  /\ (is_Some (error s) -> is_Some (error s')).

(** Every record of the browser [b'] is a record of [b], in both stores,
    and the location is the same. *)
Definition shrinks (b b' : Browser) : Prop :=
  (forall k v, stored_local b' k = Some v -> stored_local b k = Some v)
  /\ (forall k v, stored_session b' k = Some v -> stored_session b k = Some v)
  /\ (location_href <$> b') = (location_href <$> b).

(** Whether an optional field is set. *)
Definition defined {A} (o : option A) : bool :=
  match o with Some _ => true | None => false end.

(** What restoration finds in the stores of a browser, fragment by
    fragment. The key-material fragment is complete when its three records
    are non-empty; it is recovered when moreover the key library accepts the
    stored secret key, and restoration is abandoned when it rejects it. *)
Section Fragments.
Variable P : Platform.
Variable prefix : string.
Variable b : Browser.

Definition key_complete : bool :=
  nonempty (BrowserSessionStorage.get prefix STORAGE_KEYS.EPHEMERAL_KEYPAIR b)
  && nonempty (BrowserSessionStorage.get prefix STORAGE_KEYS.MAX_EPOCH b)
  && nonempty (BrowserSessionStorage.get prefix STORAGE_KEYS.RANDOMNESS b).

Definition key_accepted : bool :=
  is_ok (fromSecretKey P
           (default "" (BrowserSessionStorage.get prefix
                          STORAGE_KEYS.EPHEMERAL_KEYPAIR b))).

Definition key_recovered : bool := key_complete && key_accepted.

Definition abandoned : bool := key_complete && negb key_accepted.

Definition token_recovered : bool :=
  nonempty (BrowserSessionStorage.get prefix STORAGE_KEYS.JWT_TOKEN b)
  && is_ok (jwtDecode P
              (default "" (BrowserSessionStorage.get prefix
                             STORAGE_KEYS.JWT_TOKEN b))).

Definition parses (record : option string) : bool :=
  nonempty record && is_ok (JSON_parse P (default "" record)).

Definition salt_recovered : bool :=
  parses (BrowserStorage.get prefix STORAGE_KEYS.USER_SALT b).

Definition address_recovered : bool :=
  parses (BrowserStorage.get prefix STORAGE_KEYS.ZKLOGIN_ADDRESS b).

Definition proof_recovered : bool :=
  parses (BrowserSessionStorage.get prefix STORAGE_KEYS.ZK_PROOF b).

(** The step a recovered fragment earns. *)
Definition credit (recovered : bool) (n : Z) : Z := if recovered then n else 0.

Definition restored_step : Z :=
  Z.max (credit key_recovered 1)
    (Z.max (credit token_recovered 3)
       (Z.max (credit salt_recovered 4)
          (Z.max (credit address_recovered 5) (credit proof_recovered 6)))).
End Fragments.

(* ===================================================================== *)
(** ** Rules for running computations *)
(* ===================================================================== *)

Section WpRules.
Context {St : Type}.

Lemma wp_ret {A} (a : A) (Q : St -> result A -> Prop) s :
  Q s (Ok a) -> wp (ret a) Q s.
Proof. intros H. exact H. Qed.

Lemma wp_throw {A} e (Q : St -> result A -> Prop) s :
  Q s (Throw e) -> wp (throw e) Q s.
Proof. intros H. exact H. Qed.

Lemma wp_lift {A} (r : result A) (Q : St -> result A -> Prop) s :
  Q s r -> wp (lift r) Q s.
Proof. intros H. exact H. Qed.

Lemma wp_get (Q : St -> result St -> Prop) s :
  Q s (Ok s) -> wp get Q s.
Proof. intros H. exact H. Qed.

Lemma wp_modify f (Q : St -> result unit -> Prop) s :
  Q (f s) (Ok tt) -> wp (modify f) Q s.
Proof. intros H. exact H. Qed.

Lemma wp_bind {A B} (m : M St A) (k : A -> M St B) Q s :
  wp m (fun s' r => match r with
                    | Ok a => wp (k a) Q s'
                    | Throw e => Q s' (Throw e)
                    end) s ->
  wp (bind m k) Q s.
Proof.
  unfold wp, bind. destruct (m s) as [s' [a | e]]; cbn; intros H; exact H.
Qed.

Lemma wp_try_catch {A} (body : M St A) (handler : exn -> M St A) Q s :
  wp body (fun s' r => match r with
                       | Ok a => Q s' (Ok a)
                       | Throw e => wp (handler e) Q s'
                       end) s ->
  wp (try_catch body handler) Q s.
Proof.
  unfold wp, try_catch. destruct (body s) as [s' [a | e]]; cbn; intros H; exact H.
Qed.

Lemma wp_fire {A} (m : M St A) (Q : St -> result unit -> Prop) s :
  wp m (fun s' _ => Q s' (Ok tt)) s -> wp (fire m) Q s.
Proof. intros H. exact H. Qed.

Lemma wp_mono {A} (m : M St A) (Q Q' : St -> result A -> Prop) s :
  (forall s' r, Q s' r -> Q' s' r) -> wp m Q s -> wp m Q' s.
Proof. intros HQ H. apply HQ, H. Qed.

End WpRules.

(* ===================================================================== *)
(** ** The notification bus *)
(* ===================================================================== *)

Section EventEmitterFacts.
Context {Arg S : Type}.
Implicit Types (b : Bus Arg S) (ls : list (Listener Arg S)).

Implicit Types (l : Listener Arg S).




Lemma emit_ok event args b :
  inherited event = false -> snd (emit event args b) = Ok tt.
Proof.
  intros Hev. unfold emit. rewrite Hev.
  destruct (listeners b !! event); reflexivity.
Qed.



End EventEmitterFacts.

(** Three listeners subscribed in the order 1, 2, 3, the second throwing:
    all three run in that order, one error is logged, [emit] returns. *)
Example emit_three_listeners :
  observers (fst (emit "ready" [] example_bus)) = [1; 2; 3]%nat
  /\ snd (emit "ready" [] example_bus) = Ok tt
  /\ console_error (fst (emit "ready" [] example_bus))
     = [("Error in event listener for ready:", JsError "listener failed")].
Proof. repeat split; vm_compute; reflexivity. Qed.

Example emit_after_off :
  observers (fst (emit "ready" []
                    (fst (off "ready" (logger 2 true) example_bus))))
  = [1; 3]%nat.
Proof. vm_compute. reflexivity. Qed.

(* ===================================================================== *)
(** ** JSON values: reading back a written property *)
(* ===================================================================== *)

Lemma assoc_assoc_set_eq k x ps : assoc k (assoc_set k x ps) = Some x.
Proof.
  induction ps as [| [k' v] ps IH]; cbn [assoc assoc_set].
  - rewrite String.eqb_refl. reflexivity.
  - destruct (k =? k')%string eqn:Hk; cbn [assoc].
    + rewrite String.eqb_refl. reflexivity.
    + rewrite Hk. exact IH.
Qed.

(* ===================================================================== *)
(** ** lib/storage: what [clear] leaves *)
(* ===================================================================== *)

(** The loop over any list of keys: a key is gone when it starts with the
    prefix and was in the list, and keeps its record otherwise. *)
Lemma clear_keys_lookup prefix keys (m : gmap string string) k :
  clear_keys prefix keys m !! k
  = if String.prefix prefix k && bool_decide (k ∈ keys) then None else m !! k.
Proof.
  unfold clear_keys. revert m.
  induction keys as [| key keys IH]; intros m; cbn [foldl].
  - rewrite andb_false_r. reflexivity.
  - rewrite IH. clear IH.
    destruct (decide (k = key)) as [-> | Hne].
    + rewrite (bool_decide_eq_true_2 (key ∈ key :: keys)) by apply list_elem_of_here.
      destruct (String.prefix prefix key); cbn [andb]; [| reflexivity].
      case_bool_decide; [reflexivity | apply lookup_delete_eq].
    + assert (Hiff : bool_decide (k ∈ key :: keys) = bool_decide (k ∈ keys))
        by (apply bool_decide_ext; rewrite elem_of_cons; tauto).
      rewrite Hiff.
      assert (Hk : (if String.prefix prefix key then delete key m else m) !! k
                   = m !! k).
      { destruct (String.prefix prefix key); [| reflexivity].
        apply lookup_delete_ne. congruence. }
      rewrite Hk. reflexivity.
Qed.

Lemma clear_all_keys_lookup prefix (m : gmap string string) k :
  clear_keys prefix (Object_keys m) m !! k
  = if String.prefix prefix k && negb (shadowed k) then None else m !! k.
Proof.
  rewrite clear_keys_lookup. destruct (String.prefix prefix k); [| reflexivity].
  cbn [andb]. unfold Object_keys.
  destruct (shadowed k) eqn:Hsh; cbn [negb].
  - case_bool_decide as Hin; [| reflexivity].
    apply list_elem_of_In, filter_In in Hin. destruct Hin as [_ Hin].
    rewrite Hsh in Hin. discriminate Hin.
  - case_bool_decide as Hin; [reflexivity |].
    destruct (m !! k) as [v |] eqn:Hk; [| reflexivity].
    exfalso. apply Hin. apply list_elem_of_In, filter_In.
    split; [| rewrite Hsh; reflexivity].
    apply list_elem_of_In, list_elem_of_fmap. exists (k, v).
    split; [reflexivity |]. apply elem_of_map_to_list. exact Hk.
Qed.

Lemma clear_map_keys_lookup prefix (m : gmap string string) k :
  clear_keys prefix (Map_keys m) m !! k
  = if String.prefix prefix k then None else m !! k.
Proof.
  rewrite clear_keys_lookup. destruct (String.prefix prefix k); [| reflexivity].
  cbn [andb]. case_bool_decide as Hin; [reflexivity |].
  destruct (m !! k) as [v |] eqn:Hk; [| reflexivity].
  exfalso. apply Hin. unfold Map_keys.
  apply list_elem_of_fmap. exists (k, v). split; [reflexivity |].
  apply elem_of_map_to_list. exact Hk.
Qed.

Lemma BrowserStorage_clear_local prefix b k :
  stored_local (BrowserStorage.clear prefix b) k
  = if String.prefix prefix k && negb (shadowed k) && bool_decide (is_Some b)
    then None else stored_local b k.
Proof.
  destruct b as [w |]; [| rewrite andb_false_r; reflexivity].
  rewrite bool_decide_eq_true_2 by (eexists; reflexivity).
  rewrite andb_true_r.
  change (clear_keys prefix (Object_keys (localStorage w)) (localStorage w) !! k
          = if String.prefix prefix k && negb (shadowed k) then None
            else localStorage w !! k).
  apply clear_all_keys_lookup.
Qed.

Lemma BrowserStorage_clear_session prefix b k :
  stored_session (BrowserStorage.clear prefix b) k = stored_session b k.
Proof. destruct b as [w |]; reflexivity. Qed.

Lemma BrowserSessionStorage_clear_session prefix b k :
  stored_session (BrowserSessionStorage.clear prefix b) k
  = if String.prefix prefix k && negb (shadowed k) && bool_decide (is_Some b)
    then None else stored_session b k.
Proof.
  destruct b as [w |]; [| rewrite andb_false_r; reflexivity].
  rewrite bool_decide_eq_true_2 by (eexists; reflexivity).
  rewrite andb_true_r.
  change (clear_keys prefix (Object_keys (sessionStorage w)) (sessionStorage w) !! k
          = if String.prefix prefix k && negb (shadowed k) then None
            else sessionStorage w !! k).
  apply clear_all_keys_lookup.
Qed.

Lemma BrowserSessionStorage_clear_local prefix b k :
  stored_local (BrowserSessionStorage.clear prefix b) k = stored_local b k.
Proof. destruct b as [w |]; reflexivity. Qed.

Example clear_example :
  map_to_list
    (clear_keys "zklogin_plus_" (Object_keys (list_to_map
       [("zklogin_plus_user_salt", "a"); ("other_app", "b");
        ("zklogin_plus_zklogin_address", "c")]))
       (list_to_map
          [("zklogin_plus_user_salt", "a"); ("other_app", "b");
           ("zklogin_plus_zklogin_address", "c")]))
  = [("other_app", "b")].
Proof. vm_compute. reflexivity. Qed.

Lemma BrowserSessionStorage_get_stored prefix key b :
  BrowserSessionStorage.get prefix key b = stored_session b (prefix +:+ key).
Proof. destruct b; reflexivity. Qed.

Lemma BrowserStorage_get_stored prefix key b :
  BrowserStorage.get prefix key b = stored_local b (prefix +:+ key).
Proof. destruct b; reflexivity. Qed.

Lemma BrowserSessionStorage_remove_gone prefix key b :
  stored_session (BrowserSessionStorage.remove prefix key b) (prefix +:+ key) = None.
Proof. destruct b as [w |]; cbn; [apply lookup_delete_eq | reflexivity]. Qed.

Lemma BrowserSessionStorage_remove_absent prefix key b k :
  stored_session b k = None ->
  stored_session (BrowserSessionStorage.remove prefix key b) k = None.
Proof.
  destruct b as [w |]; cbn; [| reflexivity]. intros H.
  rewrite lookup_delete. case_decide; [reflexivity | exact H].
Qed.

Lemma BrowserStorage_remove_session prefix key b k :
  stored_session (BrowserStorage.remove prefix key b) k = stored_session b k.
Proof. destruct b; reflexivity. Qed.

(* ===================================================================== *)
(** ** lib/utils: token decoding *)
(* ===================================================================== *)

Example split_on_example :
  split_on "#"%char "https://app/cb?state=s#id_token=abc"
  = ["https://app/cb?state=s"; "id_token=abc"].
Proof. reflexivity. Qed.

Lemma decodeJwtToken_throws P now raw e :
  jwtDecode P raw = Throw e ->
  decodeJwtToken P now raw = Throw (JsError ("Invalid JWT token: " +:+ render e)).
Proof. intros H. unfold decodeJwtToken. rewrite H. reflexivity. Qed.



(* ===================================================================== *)
(** ** The client: running its methods *)
(* ===================================================================== *)

Section ClientFacts.
Variable P : Platform.
Context {S : Type}.
Implicit Types (w : @World S) (s : ZkLoginState).

Lemma this_emit_run event args w :
  inherited event = false ->
  this_emit event args w
  = (mkWorld (config w) (state w) (browser w) (fst (emit event args (bus w)))
             (emitted w ++ [(event, args)])%list (inflight w), Ok tt).
Proof.
  intros Hev. unfold this_emit.
  pose proof (emit_ok event args (bus w) Hev) as Hok.
  destruct (emit event args (bus w)) as [b' r]. cbn in Hok. subst r. reflexivity.
Qed.

(** The events the client publishes are none of them inherited names. *)
Lemma wp_this_emit event args (Q : @World S -> result unit -> Prop) w :
  inherited event = false ->
  Q (mkWorld (config w) (state w) (browser w) (fst (emit event args (bus w)))
             (emitted w ++ [(event, args)])%list (inflight w)) (Ok tt) ->
  wp (this_emit event args) Q w.
Proof. intros Hev H. unfold wp. rewrite (this_emit_run event args w Hev). exact H. Qed.

Lemma wp_in_browser {A} (m : M Browser A) (Q : @World S -> result A -> Prop) w :
  wp m (fun b' r => Q (with_browser (fun _ => b') w) r) (browser w) ->
  wp (in_browser m) Q w.
Proof.
  unfold wp, in_browser. destruct (m (browser w)) as [b' r]. intros H. exact H.
Qed.

Lemma wp_redirect o nonce oauth_state (Q : Browser -> result unit -> Prop) b :
  (forall win, b = Some win ->
     Q (Some (with_location_href (buildAuthUrl P o nonce oauth_state) win))
       (Ok tt)) ->
  (b = None -> Q None (Throw (Foreign "ReferenceError: window is not defined"))) ->
  wp (redirect P o nonce oauth_state) Q b.
Proof.
  intros HSome HNone. unfold wp, redirect.
  destruct b as [win |]; cbn; auto.
Qed.

End ClientFacts.

(** Projections of updated records, and the total helpers of lib/utils. *)
Ltac wp_simpl :=
  cbn beta iota zeta delta
    [fst snd config state browser bus emitted inflight
     with_state with_browser with_bus with_inflight settle
     currentStep ephemeralKeyPair jwt userSalt zkLoginAddress zkProof isReady
     error with_currentStep with_ephemeralKeyPair with_jwt with_userSalt
     with_zkLoginAddress with_zkProof with_isReady with_error initial_state
     getAddressBalance assign destructure].

(** One step of symbolic execution of a method body. *)
Ltac wp_step :=
  lazymatch goal with
  | |- wp (bind _ _) _ _ => apply wp_bind
  | |- wp (try_catch _ _) _ _ => apply wp_try_catch
  | |- wp (ret _) _ _ => apply wp_ret
  | |- wp (throw _) _ _ => apply wp_throw
  | |- wp (lift _) _ _ => apply wp_lift
  | |- wp (modify _) _ _ => apply wp_modify
  | |- wp (set_state _) _ _ => apply wp_modify
  | |- wp (this_emit _ _) _ _ => apply wp_this_emit; [reflexivity |]
  | |- wp (fire _) _ _ => apply wp_fire
  | |- wp (in_browser _) _ _ => apply wp_in_browser
  | |- wp (redirect _ _ _ _) _ _ =>
      apply wp_redirect; [intros ? ? | intros ?]
  | |- wp this_state _ _ => unfold this_state at 1, wp at 1
  | |- wp (suspend _) _ _ => unfold suspend at 1, wp at 1
  | |- wp (storage_get _) _ _ => unfold storage_get at 1, wp at 1
  | |- wp (storage_set _ _) _ _ => unfold storage_set at 1, wp at 1
  | |- wp (storage_remove _) _ _ => unfold storage_remove at 1, wp at 1
  | |- wp storage_clear _ _ => unfold storage_clear at 1, wp at 1
  | |- wp (sessionStorage_get _) _ _ => unfold sessionStorage_get at 1, wp at 1
  | |- wp (sessionStorage_set _ _) _ _ => unfold sessionStorage_set at 1, wp at 1
  | |- wp (sessionStorage_remove _) _ _ => unfold sessionStorage_remove at 1, wp at 1
  | |- wp sessionStorage_clear _ _ => unfold sessionStorage_clear at 1, wp at 1
  | |- wp (handleError _ _) _ _ => unfold handleError at 1
  | |- wp (fail_step _ _ _ _) _ _ => unfold fail_step at 1
  | |- wp (catch1 _) _ _ => unfold catch1 at 1
  | |- wp (catch4 _) _ _ => unfold catch4 at 1
  | |- wp (catch5 _) _ _ => unfold catch5 at 1
  | |- wp (catch6 _) _ _ => unfold catch6 at 1
  | |- wp (catch7 _) _ _ => unfold catch7 at 1
  | |- wp (catch_faucet _) _ _ => unfold catch_faucet at 1
  | |- wp generateEphemeralKeyPair_begin _ _ =>
      unfold generateEphemeralKeyPair_begin at 1
  | |- wp generateSalt_begin _ _ => unfold generateSalt_begin at 1
  | |- wp (generateAddress_begin _) _ _ => unfold generateAddress_begin at 1
  | |- wp (getZkProof_begin _) _ _ => unfold getZkProof_begin at 1
  | |- wp (set_balance _) _ _ => unfold set_balance at 1
  | |- wp (fun _ => (_, _)) _ _ => unfold wp at 1
  end; wp_simpl.

(** Case analysis on what the method body branches on. *)
Ltac wp_case :=
  lazymatch goal with
  | |- wp (match ?x with _ => _ end) _ _ => destruct x eqn:?
  | |- wp (if ?x then _ else _) _ _ => destruct x eqn:?
  | |- match ?x with _ => _ end => destruct x eqn:?
  end; wp_simpl.

Ltac wp_run := repeat first [wp_step | wp_case].

(** Turn a goal about [fst (m w)] and [snd (m w)] into a [wp] goal. *)
Ltac wp_of m w :=
  let run := fresh "run" in
  set (run := m w);
  pattern (fst run), (snd run);
  lazymatch goal with
  | |- ?Q (fst _) (snd _) => subst run; change (wp m Q w)
  end.

Ltac unfold_client :=
  unfold generateEphemeralKeyPair_begin, generateEphemeralKeyPair_resume,
    redirectToOAuth, handleOAuthCallback, generateSalt_begin,
    generateSalt_resume, generateAddress_begin, generateAddress_resume,
    getZkProof_begin, getZkProof_resume, executeTransaction_begin,
    executeTransaction_signed, executeTransaction_executed,
    requestTestTokens_begin, requestTestTokens_funded,
    requestTestTokens_resume, refreshBalance_begin, refreshBalance_resume,
    set_balance, reset, restoreState, restore_ephemeralKeyPair, restore_jwt,
    restore_userSalt, restore_zkLoginAddress, restore_zkProof.

Ltac wp_here :=
  match goal with
  | |- context [fst (?m ?w)] => wp_of m w
  | |- context [snd (?m ?w)] => wp_of m w
  end.

Ltac wp_at w :=
  match goal with
  | |- context [snd (?m w)] => wp_of m w
  | |- context [fst (?m w)] => wp_of m w
  end.

Lemma append_inj_r (p a b : string) : p +:+ a = p +:+ b -> a = b.
Proof.
  induction p as [| c p IH]; simpl; [auto |]. intros [= H]. auto.
Qed.

Lemma prefix_append (p q k : string) :
  String.prefix p q = true -> String.prefix p (q +:+ k) = true.
Proof.
  revert p. induction q as [| d q IH]; intros p.
  - destruct p as [| c p]; simpl; [| discriminate].
    intros _. destruct k; reflexivity.
  - destruct p as [| c p]; simpl; [reflexivity |].
    destruct (ascii_dec c d); [apply IH | discriminate].
Qed.

Lemma prefix_refl (p : string) : String.prefix p p = true.
Proof.
  induction p as [| c p IH]; simpl; [reflexivity |].
  destruct (ascii_dec c c); [exact IH | contradiction].
Qed.

Lemma append_in_suffixes (p k n : string) : p +:+ k = n -> In k (suffixes n).
Proof.
  revert n. induction p as [| c p IH]; intros n H.
  - cbn in H. subst n. destruct k; left; reflexivity.
  - destruct n as [| c' n]; [discriminate H |].
    injection H as _ H. right. apply IH, H.
Qed.

(** No key of the client, under any prefix, is the name of a member of the
    prototypes of a store. *)
Lemma client_key_not_shadowed (prefix key : string) :
  In key client_keys -> shadowed (prefix +:+ key) = false.
Proof.
  intros Hkey. apply not_true_iff_false. intros Hsh.
  apply existsb_exists in Hsh. destruct Hsh as (name & Hname & Heq).
  apply String.eqb_eq, append_in_suffixes in Heq.
  cbn in Hkey, Hname.
  repeat (destruct Hkey as [<- | Hkey]; [| try contradiction]);
    repeat (destruct Hname as [<- | Hname]; [| try contradiction]);
    cbn in Heq; intuition discriminate.
Qed.

(** Integers up to [2^53] in magnitude are numbers as they are. *)
Lemma Number_round_exact (z : Z) : Z.abs z <= 2 ^ 53 -> Number_round z = z.
Proof.
  intros Hz. unfold Number_round. cbv zeta.
  destruct (Z.leb_spec (Z.abs z) (2 ^ 53)); [reflexivity | lia].
Qed.

Lemma calculateMaxEpoch_exact (reported : Z) :
  0 <= reported <= 2 ^ 53 - 10 ->
  calculateMaxEpoch (getCurrentEpoch reported) = reported + 10.
Proof.
  intros Hr. unfold calculateMaxEpoch, getCurrentEpoch.
  rewrite (Number_round_exact reported) by lia.
  apply Number_round_exact. lia.
Qed.

Section ClientSteps.
Variable P : Platform.
Context {S : Type}.
Implicit Types (w : @World S) (s : ZkLoginState).


(** C10, as the code has it. When the balance lookup of the chain throws
    [e], [getAddressBalance] answers ["0"]; step 5, once its preconditions
    let it reach the lookup, completes with an address record whose balance
    is ["0"] and stores it in the state; [refreshBalance], when the address
    record of the state is an object (as step 5 writes it), returns ["0"] and
    sets the cached balance to ["0"]. Neither raises. *)
Theorem balance_lookup_failure_absorbed :
  forall w (e : exn),
    getAddressBalance (Throw e) = Ok "0"
    /\ (forall p,
          snd (generateAddress_begin P w) = Ok p ->
          exists fields,
            p = AwaitBalance (JObj fields)
            /\ forall w2,
                 exists v,
                   snd (generateAddress_resume P (JObj fields) (Throw e) w2) = Ok v
                   /\ prop "balance" v = Some (JStr "0")
                   /\ zkLoginAddress
                        (state (fst (generateAddress_resume P (JObj fields)
                                       (Throw e) w2))) = Some v)
    /\ (forall fields,
          zkLoginAddress (state w) = Some (JObj fields) ->
          is_ok (snd (refreshBalance_begin w)) = true
          /\ snd (refreshBalance_resume (Throw e) w) = Ok "0"
          /\ zkLoginAddress (state (fst (refreshBalance_resume (Throw e) w)))
             = Some (JObj (assoc_set "balance" (JStr "0") fields))).
Proof.
  intros w e. split; [reflexivity | split].
  - intros p.
    wp_at w.
    unfold generateAddress_begin.
    wp_step. wp_step. wp_step.
    destruct (jwt (state w)) as [j |]; [| repeat wp_step; discriminate].
    destruct (negb (present (userSalt (state w)))); [repeat wp_step; discriminate |].
    wp_step. wp_step.
    destruct (member "salt" (userSalt (state w))) as [salt | err];
      [| repeat wp_step; discriminate].
    wp_step. wp_step.
    destruct (generateZkLoginAddress P (token j) salt) as [a | err] eqn:Hgen;
      [| repeat wp_step; discriminate].
    wp_step. intros [= <-].
    assert (Ha : exists fields, a = JObj fields).
    { revert Hgen. unfold generateZkLoginAddress.
      destruct (jwtToAddress P (token j) salt); [| discriminate].
      destruct (jwtDecode P (token j)); [| discriminate].
      destruct (negb (nonempty (sub a1)) || aud_falsy (aud a1)); [discriminate |].
      destruct (BigInt P salt); [| discriminate].
      destruct (genAddressSeed P _ _ _ _); [| discriminate].
      intros [= <-]. eauto. }
    destruct Ha as [fields ->]. exists fields. split; [reflexivity |].
    intros w2.
    exists (JObj (assoc_set "balance" (JStr "0") fields)).
    split; [| split].
    + wp_at w2. unfold generateAddress_resume, getZkProof_begin.
      wp_run; reflexivity.
    + apply assoc_assoc_set_eq.
    + wp_at w2. unfold generateAddress_resume, getZkProof_begin.
      wp_run; reflexivity.
  - intros fields Haddr.
    split; [| split].
    + wp_at w. unfold refreshBalance_begin.
      repeat wp_step. rewrite Haddr. cbn. repeat wp_step. reflexivity.
    + wp_at w. unfold refreshBalance_resume.
      repeat wp_step. unfold set_balance. repeat wp_step.
      rewrite Haddr. repeat wp_step. reflexivity.
    + wp_at w. unfold refreshBalance_resume.
      repeat wp_step. unfold set_balance. repeat wp_step.
      rewrite Haddr. repeat wp_step. reflexivity.
Qed.

(** X30. [reset()] returns normally; afterwards, in a browser, no record
    whose key starts with the configured prefix is left in the durable store
    or in the ephemeral store, except records whose whole key is the name of
    a member of [Storage.prototype] or [Object.prototype], which
    [Object.keys] does not list and [clear()] therefore leaves; every other
    record is untouched; in particular none of the client's own records
    is left, whatever the prefix; the state is
    [{ currentStep: 0, isReady: false }] with no sub-record and no error, and
    step 1 has been started: its epoch request is in flight. *)
Theorem reset_clears_and_restarts :
  forall w,
    let w' := fst (reset w) in
    let prefix := r_storagePrefix (config w) in
    snd (reset w) = Ok tt
    /\ (forall k, stored_local (browser w') k
                  = if String.prefix prefix k && negb (shadowed k)
                    then None else stored_local (browser w) k)
    /\ (forall k, stored_session (browser w') k
                  = if String.prefix prefix k && negb (shadowed k)
                    then None else stored_session (browser w) k)
    /\ (forall key, In key client_keys ->
          BrowserStorage.get prefix key (browser w') = None
          /\ BrowserSessionStorage.get prefix key (browser w') = None)
    /\ state w' = mkState 0 None None None None None false None
    /\ inflight w' = (inflight w ++ [AwaitEpoch])%list
    /\ emitted w' = emitted w.
Proof.
  intros w. cbn zeta.
  assert (Hlocal : forall b k,
             stored_local
               (BrowserSessionStorage.clear (r_storagePrefix (config w))
                  (BrowserStorage.clear (r_storagePrefix (config w)) b)) k
             = if String.prefix (r_storagePrefix (config w)) k && negb (shadowed k)
               then None else stored_local b k).
  { intros b k. rewrite BrowserSessionStorage_clear_local.
    rewrite BrowserStorage_clear_local.
    destruct b; [rewrite andb_true_r; reflexivity |].
    rewrite andb_false_r. destruct (_ && _); reflexivity. }
  assert (Hsession : forall b k,
             stored_session
               (BrowserSessionStorage.clear (r_storagePrefix (config w))
                  (BrowserStorage.clear (r_storagePrefix (config w)) b)) k
             = if String.prefix (r_storagePrefix (config w)) k && negb (shadowed k)
               then None else stored_session b k).
  { intros b k. rewrite BrowserSessionStorage_clear_session.
    rewrite BrowserStorage_clear_session.
    destruct b; [rewrite andb_true_r; reflexivity |].
    rewrite andb_false_r. destruct (_ && _); reflexivity. }
  wp_at w. unfold reset, generateEphemeralKeyPair_begin. wp_run.
  repeat split.
  - intros k. apply Hlocal.
  - intros k. apply Hsession.
  - rewrite BrowserStorage_get_stored, Hlocal.
    rewrite (prefix_append _ _ key (prefix_refl _)).
    rewrite client_key_not_shadowed by assumption. reflexivity.
  - rewrite BrowserSessionStorage_get_stored, Hsession.
    rewrite (prefix_append _ _ key (prefix_refl _)).
    rewrite client_key_not_shadowed by assumption. reflexivity.
Qed.

End ClientSteps.

(* ===================================================================== *)
(** ** Restoration at construction *)
(* ===================================================================== *)

Section Restoration.
Variable P : Platform.
Context {S : Type}.
Implicit Types (w : @World S) (s : ZkLoginState).

(** [restoreState] catches whatever its blocks throw. *)
Lemma restoreState_ok now w : snd (restoreState P now w) = Ok tt.
Proof.
  unfold restoreState, try_catch.
  destruct (bind _ _ w) as [w' [[] | e]]; reflexivity.
Qed.

Lemma construct_run c b (s0 : S) now :
  validateConfig c = Ok tt ->
  construct P c b s0 now
  = Ok (fst (restoreState P now
               (mkWorld (fill_config c) initial_state b (mkBus ∅ s0 []) [] []))).
Proof.
  intros Hc. unfold construct. rewrite Hc.
  pose proof (restoreState_ok now
                (mkWorld (fill_config c) initial_state b (mkBus ∅ s0 []) [] []))
    as Hok.
  destruct (restoreState P now _) as [w' r]. cbn in Hok. subst r. reflexivity.
Qed.

Lemma keeps_refl w : keeps w w.
Proof. repeat split; auto. Qed.

Lemma keeps_trans w1 w2 w3 : keeps w1 w2 -> keeps w2 w3 -> keeps w1 w3.
Proof.
  intros (Hc1 & Hj1 & Hs1) (Hc2 & Hj2 & Hs2). repeat split.
  - congruence.
  - congruence.
  - intros k Hk. apply Hs2, Hs1, Hk.
Qed.

Lemma restore_ephemeralKeyPair_keeps w :
  wp (restore_ephemeralKeyPair P)
     (fun w' r =>
        keeps w w' /\ browser w' = browser w
        /\ (forall e, r = Throw e ->
             let prefix := r_storagePrefix (config w) in
             let sget key := BrowserSessionStorage.get prefix key (browser w) in
             nonempty (sget STORAGE_KEYS.EPHEMERAL_KEYPAIR)
               && nonempty (sget STORAGE_KEYS.MAX_EPOCH)
               && nonempty (sget STORAGE_KEYS.RANDOMNESS) = true
             /\ fromSecretKey P (default "" (sget STORAGE_KEYS.EPHEMERAL_KEYPAIR))
                = Throw e)) w.
Proof.
  unfold restore_ephemeralKeyPair, generateEphemeralKeyPair_begin.
  wp_run; (split; [unfold keeps; wp_simpl; repeat split; auto | ]);
    (split; [reflexivity |]); try discriminate.
  intros e' [= <-]. cbv zeta. split; reflexivity.
Qed.

Lemma restore_userSalt_keeps w :
  wp (restore_userSalt P) (fun w' r => r = Ok tt /\ keeps w w') w.
Proof.
  unfold restore_userSalt.
  wp_run; (split; [reflexivity |]); unfold keeps; wp_simpl; repeat split; auto.
  intros k Hk. rewrite BrowserStorage_remove_session. exact Hk.
Qed.

Lemma restore_zkLoginAddress_keeps w :
  wp (restore_zkLoginAddress P) (fun w' r => r = Ok tt /\ keeps w w') w.
Proof.
  unfold restore_zkLoginAddress.
  wp_run; (split; [reflexivity |]); unfold keeps; wp_simpl; repeat split; auto.
  intros k Hk. rewrite BrowserStorage_remove_session. exact Hk.
Qed.

Lemma restore_zkProof_keeps w :
  wp (restore_zkProof P) (fun w' r => r = Ok tt /\ keeps w w') w.
Proof.
  unfold restore_zkProof.
  wp_run; (split; [reflexivity |]); unfold keeps; wp_simpl; repeat split; auto.
  intros k Hk. apply BrowserSessionStorage_remove_absent. exact Hk.
Qed.

(** C6, as the code has it. When the ephemeral store holds a token record
    that does not decode, construction succeeds (no exception escapes
    restoration) and [state.jwt] is absent afterwards. The record is removed
    when it is not the empty string and restoration gets as far as the token
    block, that is, unless a complete key-material fragment holds a secret key
    that the key library rejects. *)
Theorem restore_undecodable_token :
  forall c b (s0 : S) now tok e,
    let prefix := r_storagePrefix (fill_config c) in
    let sget key := BrowserSessionStorage.get prefix key b in
    validateConfig c = Ok tt ->
    sget STORAGE_KEYS.JWT_TOKEN = Some tok ->
    jwtDecode P tok = Throw e ->
    exists w,
      construct P c b s0 now = Ok w
      /\ jwt (state w) = None
      /\ (tok <> "" ->
          (nonempty (sget STORAGE_KEYS.EPHEMERAL_KEYPAIR)
             && nonempty (sget STORAGE_KEYS.MAX_EPOCH)
             && nonempty (sget STORAGE_KEYS.RANDOMNESS) = true ->
           is_ok (fromSecretKey P
                    (default "" (sget STORAGE_KEYS.EPHEMERAL_KEYPAIR))) = true) ->
          BrowserSessionStorage.get prefix STORAGE_KEYS.JWT_TOKEN (browser w) = None).
Proof.
  intros c b s0 now tok e prefix sget Hc Hget Hdec.
  rewrite (construct_run c b s0 now Hc).
  eexists. split; [reflexivity |].
  set (w0 := mkWorld (fill_config c) initial_state b (mkBus ∅ s0 []) [] []).
  cut (jwt (state (fst (restoreState P now w0))) = None
       /\ (tok <> "" ->
           (nonempty (sget STORAGE_KEYS.EPHEMERAL_KEYPAIR)
              && nonempty (sget STORAGE_KEYS.MAX_EPOCH)
              && nonempty (sget STORAGE_KEYS.RANDOMNESS) = true ->
            is_ok (fromSecretKey P
                     (default "" (sget STORAGE_KEYS.EPHEMERAL_KEYPAIR))) = true) ->
           stored_session (browser (fst (restoreState P now w0)))
                          (prefix +:+ STORAGE_KEYS.JWT_TOKEN) = None)).
  { intros [Hj Hs]. split; [exact Hj |]. intros Hne Hkey.
    rewrite BrowserSessionStorage_get_stored. apply Hs; assumption. }
  wp_at w0. unfold restoreState.
  apply wp_try_catch, wp_bind.
  eapply wp_mono; [| apply restore_ephemeralKeyPair_keeps].
  intros w1 r1 ((Hc1 & Hj1 & Hs1) & Hb1 & Hthrow).
  subst w0. cbn [config state browser jwt initial_state] in Hc1, Hj1, Hs1, Hb1, Hthrow.
  destruct r1 as [[] | e1].
  - (* the key-material block returned *)
    apply wp_bind. unfold restore_jwt. wp_step. wp_step.
    rewrite Hc1, Hb1. fold prefix. fold (sget STORAGE_KEYS.JWT_TOKEN).
    rewrite Hget. cbn [nonempty default from_option id].
    destruct (String.eqb_spec tok "") as [-> | Htok]; cbn [negb].
    + (* an empty record is not looked at *)
      wp_step. apply wp_bind.
      eapply wp_mono; [| apply restore_userSalt_keeps].
      intros w2 r2 (-> & K2). apply wp_bind.
      eapply wp_mono; [| apply restore_zkLoginAddress_keeps].
      intros w3 r3 (-> & K3).
      eapply wp_mono; [| apply restore_zkProof_keeps].
      intros w4 r4 (-> & K4).
      pose proof (keeps_trans _ _ _ K2 (keeps_trans _ _ _ K3 K4)) as (_ & Hj & _).
      split; [| intros Hne; contradiction].
      rewrite Hj, Hj1. reflexivity.
    + (* decoding throws, the record is removed *)
      rewrite (decodeJwtToken_throws P now tok e Hdec).
      wp_step. wp_step. wp_step. wp_step. apply wp_bind.
      eapply wp_mono; [| apply restore_userSalt_keeps].
      intros w2 r2 (-> & K2). apply wp_bind.
      eapply wp_mono; [| apply restore_zkLoginAddress_keeps].
      intros w3 r3 (-> & K3).
      eapply wp_mono; [| apply restore_zkProof_keeps].
      intros w4 r4 (-> & K4).
      pose proof (keeps_trans _ _ _ K2 (keeps_trans _ _ _ K3 K4)) as (_ & Hj & Hs).
      split.
      * rewrite Hj. wp_simpl. rewrite Hj1. reflexivity.
      * intros _ _. apply Hs. wp_simpl. rewrite Hc1.
        apply BrowserSessionStorage_remove_gone.
  - (* the key-material block threw: restoration stops there *)
    wp_step. split.
    + rewrite Hj1. reflexivity.
    + intros _ Hkey. exfalso.
      destruct (Hthrow e1 eq_refl) as [Hcomplete Hfrom].
      fold prefix in Hcomplete, Hfrom.
      specialize (Hkey Hcomplete). unfold sget in Hkey.
      rewrite Hfrom in Hkey. discriminate.
Qed.

(** C3, as the code has it. When the stores hold a user-salt record that
    parses, no complete key-material fragment, and no token, address or proof
    record, the constructor leaves [currentStep = 4]: the salt fragment alone
    earns step 4. The salt is the only sub-record present, [isReady] is
    false, and step 1 has been started to regenerate the key material. *)
Theorem restore_salt_only :
  forall c b (s0 : S) now saltStr v,
    let prefix := r_storagePrefix (fill_config c) in
    let sget key := BrowserSessionStorage.get prefix key b in
    let lget key := BrowserStorage.get prefix key b in
    validateConfig c = Ok tt ->
    nonempty (sget STORAGE_KEYS.EPHEMERAL_KEYPAIR)
      && nonempty (sget STORAGE_KEYS.MAX_EPOCH)
      && nonempty (sget STORAGE_KEYS.RANDOMNESS) = false ->
    nonempty (sget STORAGE_KEYS.JWT_TOKEN) = false ->
    nonempty (lget STORAGE_KEYS.ZKLOGIN_ADDRESS) = false ->
    nonempty (sget STORAGE_KEYS.ZK_PROOF) = false ->
    lget STORAGE_KEYS.USER_SALT = Some saltStr ->
    saltStr <> "" ->
    JSON_parse P saltStr = Ok v ->
    exists w,
      construct P c b s0 now = Ok w
      /\ state w = mkState 4 None None (Some v) None None false None
      /\ inflight w = [AwaitEpoch]
      /\ browser w = b.
Proof.
  intros c b s0 now saltStr v prefix sget lget Hc Hkey Hjwt Haddr Hproof Hsalt
         Hne Hparse.
  rewrite (construct_run c b s0 now Hc).
  eexists. split; [reflexivity |].
  set (w0 := mkWorld (fill_config c) initial_state b (mkBus ∅ s0 []) [] []).
  wp_at w0. subst w0. subst prefix sget lget. cbv beta in *.
  assert (Hne' : (saltStr =? "")%string = false) by (apply String.eqb_neq; exact Hne).
  unfold restoreState, restore_ephemeralKeyPair, restore_jwt, restore_userSalt,
    restore_zkLoginAddress, restore_zkProof, generateEphemeralKeyPair_begin.
  repeat first
    [ wp_step
    | rewrite Hkey | rewrite Hjwt | rewrite Haddr | rewrite Hproof
    | rewrite Hsalt; cbn [nonempty default from_option id]; rewrite Hne';
      cbn [negb]
    | rewrite Hparse ].
  repeat split.
Qed.

End Restoration.

(* ===================================================================== *)
(** ** Readiness over all runs *)
(* ===================================================================== *)

Section Readiness.
Variable P : Platform.
Context {S : Type}.
Implicit Types (w : @World S) (s : ZkLoginState).

Ltac ready_leaf :=
  unfold ready_has_proof in *; wp_simpl;
  first [assumption | intros _; eexists; reflexivity | discriminate | idtac].

Lemma restoreState_ready now w :
  ready_has_proof (state w) ->
  ready_has_proof (state (fst (restoreState P now w))).
Proof.
  intros HJ. wp_here. unfold_client. wp_run; ready_leaf.
Qed.

Lemma step_ready w w' :
  step P w w' -> ready_has_proof (state w) -> ready_has_proof (state w').
Proof.
  intros Hstep HJ.
  destruct Hstep; try exact HJ; wp_here; unfold_client; wp_run; ready_leaf.
Qed.

Lemma reachable_ready w : reachable P w -> ready_has_proof (state w).
Proof.
  induction 1 as [c b s0 now w Hw | w w' _ IH Hstep].
  - unfold construct in Hw. destruct (validateConfig c); [| discriminate].
    pose proof (restoreState_ready now
                  (mkWorld (fill_config c) initial_state b (mkBus ∅ s0 []) [] []))
      as Hr.
    destruct (restoreState P now _) as [w1 [[] | e]]; [| discriminate].
    injection Hw as <-. apply Hr. intros Hfalse. discriminate.
  - eapply step_ready; eassumption.
Qed.

End Readiness.

(** C2, as the code has it. In every world reachable from construction
    (restoring any store contents) by any calls and any answers, failed ones
    included, [isReady = true] implies that the proof field has been assigned:
    by step 6 from the prover's answer or by restoration from a proof record
    that parses. The other four sub-records need not be present. *)
Theorem ready_implies_proof_assigned :
  forall (P : Platform) (S : Type) (w : @World S),
    reachable P w -> isReady (state w) = true -> is_Some (zkProof (state w)).
Proof.
  intros P S w Hreach. exact (reachable_ready P w Hreach).
Qed.

(* ===================================================================== *)
(** ** Failing steps *)
(* ===================================================================== *)

Section Failures.
Variable P : Platform.
Context {S : Type}.
Implicit Types (w : @World S) (s : ZkLoginState).

(** C1, as the code has it. When a step operation fails, at its call or at
    the continuation after one of its awaits, it has stored the failure
    message in [state.error], its last notification is [error] with that
    message, the exception it throws is a [ZkLoginError] with that message,
    the code of the step and the number of the step, and [currentStep] has
    been set to the number of the failed step, whatever it was before. *)
Theorem failed_step_records_and_tags :
  forall (m : StepMethod) w (e : exn),
    snd (run_step P m w) = Throw e ->
    exists message,
      e = ZkLoginError message (Some (step_code m)) (Some (step_number m))
      /\ error (state (fst (run_step P m w))) = Some message
      /\ last (emitted (fst (run_step P m w))) = Some ("error", [ArgMessage message])
      /\ currentStep (state (fst (run_step P m w))) = step_number m.
Proof.
  intros m w e. wp_here.
  destruct m; unfold run_step, void; unfold_client; wp_run;
    try discriminate;
    (intros [= <-]; eexists; repeat split; apply last_snoc).
Qed.

(** C4, as the code has it, for the two steps that check the state. When
    the check of step 5 (token and salt) or of step 6 (key material, token
    and salt) fails, the call throws the step's [ZkLoginError] with no request
    put in flight and no store touched, records the message in [state.error],
    and sets [currentStep] to the number of the step. *)
Theorem guarded_step_fails_early :
  forall (g : GuardedStep) w,
    guard_holds g (state w) = false ->
    exists message,
      snd (guarded_call P g w)
      = Throw (ZkLoginError message (Some (guarded_code g)) (Some (guarded_number g)))
      /\ inflight (fst (guarded_call P g w)) = inflight w
      /\ browser (fst (guarded_call P g w)) = browser w
      /\ error (state (fst (guarded_call P g w))) = Some message
      /\ currentStep (state (fst (guarded_call P g w))) = guarded_number g.
Proof.
  intros g w Hguard. wp_here.
  assert (Hsome : forall A (x : A), bool_decide (is_Some (Some x)) = true)
    by (intros A x; apply bool_decide_eq_true_2; eexists; reflexivity).
  destruct g; unfold guard_holds in Hguard; unfold guarded_call; unfold_client.
  - wp_step. wp_step. wp_step.
    destruct (jwt (state w)) as [j |] eqn:Hj.
    + rewrite Hsome in Hguard. cbn [andb] in Hguard. rewrite Hguard.
      cbn [negb]. wp_run. eexists. repeat split.
    + wp_run. eexists. repeat split.
  - wp_step. wp_step. wp_step.
    destruct (ephemeralKeyPair (state w)) as [k |] eqn:Hk.
    + rewrite Hsome in Hguard. cbn [andb] in Hguard.
      destruct (jwt (state w)) as [j |] eqn:Hj.
      * rewrite Hsome in Hguard. cbn [andb] in Hguard. rewrite Hguard.
        cbn [negb]. wp_run. eexists. repeat split.
      * wp_run. eexists. repeat split.
    + wp_run. eexists. repeat split.
Qed.

(** Step 4 makes no check on the state: it reads the raw token record of
    the ephemeral store, whatever it is, and puts the salt request in
    flight. *)
Lemma generateSalt_unguarded w :
  generateSalt_begin w
  = (with_inflight
       (fun l => (l ++ [AwaitSalt (BrowserSessionStorage.get
                                     (r_storagePrefix (config w))
                                     STORAGE_KEYS.JWT_TOKEN (browser w))])%list) w,
     Ok (AwaitSalt (BrowserSessionStorage.get (r_storagePrefix (config w))
                      STORAGE_KEYS.JWT_TOKEN (browser w)))).
Proof. reflexivity. Qed.

End Failures.

(* ===================================================================== *)
(** ** Concrete runs *)
(* ===================================================================== *)

Lemma example_world_constructed : example_construct [] [] = Ok example_world.
Proof. vm_compute. reflexivity. Qed.

Lemma proof_only_world_constructed :
  example_construct [] [("zklogin_plus_zk_proof", "{}")] = Ok proof_only_world.
Proof. vm_compute. reflexivity. Qed.

Lemma salt_only_world_constructed :
  example_construct [("zklogin_plus_user_salt", salt_record_text)] []
  = Ok salt_only_world.
Proof. vm_compute. reflexivity. Qed.

Lemma example_world_reachable : reachable example_platform example_world.
Proof. eapply reachable_construct. exact example_world_constructed. Defined.

Lemma proof_only_world_reachable : reachable example_platform proof_only_world.
Proof. eapply reachable_construct. exact proof_only_world_constructed. Defined.

(** C1, as stated, fails. The stores hold a proof record and no key
    material: the constructor restores step 6 and starts step 1. The chain
    RPC is down and step 1 fails: [currentStep] goes from 6 to 1. *)
Lemma failed_step_lowers_currentStep :
  reachable example_platform proof_only_world
  /\ inflight proof_only_world !! 0%nat = Some AwaitEpoch
  /\ currentStep (state proof_only_world) = 6
  /\ is_ok (snd (generateEphemeralKeyPair_resume example_platform
                  (Throw (Foreign "rpc down")) (mkKeypair "sk" "pk") "r"
                  (settle 0 proof_only_world))) = false
  /\ currentStep
       (state (fst (generateEphemeralKeyPair_resume example_platform
                      (Throw (Foreign "rpc down")) (mkKeypair "sk" "pk") "r"
                      (settle 0 proof_only_world)))) = 1
  /\ ~ (currentStep (state proof_only_world)
        <= currentStep
             (state (fst (generateEphemeralKeyPair_resume example_platform
                            (Throw (Foreign "rpc down")) (mkKeypair "sk" "pk") "r"
                            (settle 0 proof_only_world))))).
Proof.
  split; [exact proof_only_world_reachable |].
  repeat split; try (vm_compute; reflexivity).
  vm_compute. intros H. apply H. reflexivity.
Qed.

(** C1 at a concrete failure: step 5 called on a client without a token. *)
Lemma failed_step_records_and_tags_witness :
  exists message,
    ZkLoginError "Failed to generate address: Error: JWT not available"
                 (Some "ADDRESS_GENERATION_FAILED") (Some 5)
    = ZkLoginError message (Some (step_code Step5_call))
                   (Some (step_number Step5_call))
    /\ error (state (fst (run_step example_platform Step5_call example_world)))
       = Some message
    /\ last (emitted (fst (run_step example_platform Step5_call example_world)))
       = Some ("error", [ArgMessage message])
    /\ currentStep (state (fst (run_step example_platform Step5_call example_world)))
       = step_number Step5_call.
Proof.
  apply (failed_step_records_and_tags example_platform Step5_call example_world).
  vm_compute. reflexivity.
Defined.

(** C2, as stated, fails. The ephemeral store holds a proof record and
    nothing else: after construction [isReady] is true and the key material,
    the token, the salt and the address are all absent. *)
Lemma ready_without_other_records :
  reachable example_platform proof_only_world
  /\ isReady (state proof_only_world) = true
  /\ ephemeralKeyPair (state proof_only_world) = None
  /\ jwt (state proof_only_world) = None
  /\ userSalt (state proof_only_world) = None
  /\ zkLoginAddress (state proof_only_world) = None.
Proof.
  split; [exact proof_only_world_reachable |]. repeat split.
Qed.

(** C2 at a concrete ready world. *)
Lemma ready_implies_proof_assigned_witness :
  is_Some (zkProof (state proof_only_world)).
Proof.
  apply (ready_implies_proof_assigned example_platform unit proof_only_world).
  - exact proof_only_world_reachable.
  - reflexivity.
Defined.

(** C3, as stated, fails. The durable store holds the salt record
    [{"salt":"1","createdAt":0}] and nothing else, the ephemeral store is
    empty: after construction [currentStep] is 4, so [currentStep >= 4]
    holds. *)
Lemma restore_salt_only_reaches_step_4 :
  example_construct [("zklogin_plus_user_salt", salt_record_text)] []
  = Ok salt_only_world
  /\ currentStep (state salt_only_world) = 4
  /\ ~ (currentStep (state salt_only_world) < 4).
Proof.
  split; [exact salt_only_world_constructed |].
  split; [reflexivity |]. vm_compute. discriminate.
Qed.

(** C3 at that store. *)
Lemma restore_salt_only_witness :
  exists w,
    construct example_platform example_config
      (example_browser [("zklogin_plus_user_salt", salt_record_text)] []) tt 0
    = Ok w
    /\ state w = mkState 4 None None (Some salt_record) None None false None
    /\ inflight w = [AwaitEpoch]
    /\ browser w = example_browser [("zklogin_plus_user_salt", salt_record_text)] [].
Proof.
  apply (restore_salt_only example_platform example_config
           (example_browser [("zklogin_plus_user_salt", salt_record_text)] []) tt 0
           salt_record_text salt_record);
    try (vm_compute; reflexivity).
  discriminate.
Defined.

(** C4, as stated, fails. Step 5 is called on a fresh client, which has no
    token: the call fails and [currentStep] goes from 0 to 5. Step 4 called
    on the same client does not fail: it puts a salt request in flight that
    carries no token. *)
Lemma guarded_step_changes_currentStep :
  reachable example_platform example_world
  /\ jwt (state example_world) = None
  /\ currentStep (state example_world) = 0
  /\ is_ok (snd (generateAddress_begin example_platform example_world)) = false
  /\ currentStep (state (fst (generateAddress_begin example_platform example_world)))
     = 5
  /\ currentStep (state (fst (generateAddress_begin example_platform example_world)))
     <> currentStep (state example_world)
  /\ snd (generateSalt_begin example_world) = Ok (AwaitSalt None)
  /\ inflight (fst (generateSalt_begin example_world))
     = [AwaitEpoch; AwaitSalt None].
Proof.
  split; [exact example_world_reachable |].
  repeat split; try (vm_compute; reflexivity).
  vm_compute. discriminate.
Qed.

(** C4 at that call. *)
Lemma guarded_step_fails_early_witness :
  exists message,
    snd (guarded_call example_platform Guarded5 example_world)
    = Throw (ZkLoginError message (Some (guarded_code Guarded5))
                          (Some (guarded_number Guarded5)))
    /\ inflight (fst (guarded_call example_platform Guarded5 example_world))
       = inflight example_world
    /\ browser (fst (guarded_call example_platform Guarded5 example_world))
       = browser example_world
    /\ error (state (fst (guarded_call example_platform Guarded5 example_world)))
       = Some message
    /\ currentStep (state (fst (guarded_call example_platform Guarded5 example_world)))
       = guarded_number Guarded5.
Proof.
  apply (guarded_step_fails_early example_platform Guarded5 example_world).
  vm_compute. reflexivity.
Defined.

(** C6, as stated, fails. The ephemeral store holds a token record that is
    the empty string, which does not decode: restoration does not look at it
    and the record is still there afterwards. Likewise when the store holds
    the undecodable token ["garbage"] next to a complete key-material fragment
    whose secret key the key library rejects: restoration stops at the key
    material and the token record stays. *)
Lemma restore_keeps_token_record :
  is_ok (jwtDecode example_platform "") = false
  /\ (fun w : @World unit =>
        (jwt (state w), stored_session (browser w) "zklogin_plus_jwt_token"))
     <$> ok_value (example_construct [] [("zklogin_plus_jwt_token", "")])
     = Some (None, Some "")
  /\ is_ok (jwtDecode example_platform "garbage") = false
  /\ (fun w : @World unit =>
        (jwt (state w), stored_session (browser w) "zklogin_plus_jwt_token"))
     <$> ok_value (example_construct []
                     [("zklogin_plus_ephemeral_keypair", "bad");
                      ("zklogin_plus_max_epoch", "5");
                      ("zklogin_plus_randomness", "r");
                      ("zklogin_plus_jwt_token", "garbage")])
     = Some (None, Some "garbage").
Proof. repeat split; vm_compute; reflexivity. Qed.

(** C6 at a store whose token record is the text ["garbage"]. *)
Lemma restore_undecodable_token_witness :
  exists w,
    construct example_platform example_config
      (example_browser [] [("zklogin_plus_jwt_token", "garbage")]) tt 0 = Ok w
    /\ jwt (state w) = None
    /\ BrowserSessionStorage.get "zklogin_plus_" STORAGE_KEYS.JWT_TOKEN (browser w)
       = None.
Proof.
  destruct (restore_undecodable_token example_platform example_config
              (example_browser [] [("zklogin_plus_jwt_token", "garbage")]) tt 0
              "garbage" (Foreign "InvalidTokenError: Invalid token specified")
              eq_refl eq_refl eq_refl)
    as (w & Hw & Hjwt & Hremoved).
  exists w. split; [exact Hw |]. split; [exact Hjwt |].
  apply Hremoved.
  - discriminate.
  - vm_compute. discriminate.
Defined.



(** C10, as stated, fails. The durable store holds the text ["1"] as
    address record. The constructor parses it and assigns the number 1 to
    [state.zkLoginAddress] without looking at it. [refreshBalance] finds the
    record truthy and makes its request; the lookup fails and is absorbed as
    ["0"], but writing [balance] on a number throws in strict-mode code: the
    operation raises. *)
Lemma refreshBalance_raises_on_restored_number :
  exists w,
    construct reload_platform example_config
      (example_browser [("zklogin_plus_zklogin_address", "1")] []) tt 0 = Ok w
    /\ zkLoginAddress (state w) = Some (JNum 1)
    /\ is_ok (snd (refreshBalance_begin w)) = true
    /\ getAddressBalance (Throw (Foreign "rpc down")) = Ok "0"
    /\ snd (refreshBalance_resume (Throw (Foreign "rpc down"))
              (fst (refreshBalance_begin w)))
       = Throw (Foreign "TypeError: Cannot create property").
Proof. eexists. split; [vm_compute; reflexivity |]. vm_compute. auto. Qed.

(** C10 at a client that has its token, salt and address, with the balance
    RPC down. *)
Lemma balance_lookup_failure_absorbed_witness :
  (exists fields,
     snd (generateAddress_begin example_platform address_world)
     = Ok (AwaitBalance (JObj fields))
     /\ exists v,
          snd (generateAddress_resume example_platform (JObj fields)
                 (Throw (Foreign "rpc down")) address_world) = Ok v
          /\ prop "balance" v = Some (JStr "0"))
  /\ snd (refreshBalance_resume (Throw (Foreign "rpc down")) address_world)
     = Ok "0".
Proof.
  destruct (balance_lookup_failure_absorbed example_platform address_world
              (Foreign "rpc down")) as (_ & Hstep5 & Hrefresh).
  split.
  - destruct (Hstep5 (AwaitBalance (JObj [("address", JStr "0xaddress");
                                          ("addressSeed", JStr "seed")])))
      as (fields & Hp & Hresume).
    + vm_compute. reflexivity.
    + exists fields. split.
      * injection Hp as <-. vm_compute. reflexivity.
      * destruct (Hresume address_world) as (v & Hv & Hbal & _).
        exists v. split; assumption.
  - destruct (Hrefresh [("address", JStr "0xaddress");
                        ("addressSeed", JStr "seed");
                        ("balance", JStr "5")] eq_refl) as (_ & Hok & _).
    exact Hok.
Defined.

(* ===================================================================== *)
(** ** Further properties: the stores *)
(* ===================================================================== *)

Lemma getKey_eqb (p k k' : string) :
  bool_decide (p +:+ k' = p +:+ k) = (k' =? k)%string.
Proof.
  destruct (String.eqb_spec k' k) as [-> | Hne].
  - apply bool_decide_eq_true_2. reflexivity.
  - apply bool_decide_eq_false_2. intros H. apply Hne, (append_inj_r p), H.
Qed.

(** X1. Writing a record and reading it back, in a browser. Under the same
    prefix, [get] after [set] gives the written value for the written key and
    what was there before for any other key; this holds for the durable store
    and for the ephemeral store, and a write to one is not seen by the
    other. *)
Theorem browser_store_set_get :
  forall (prefix key value key' : string) (win : Window),
    BrowserStorage.get prefix key'
      (BrowserStorage.set prefix key value (Some win))
    = (if (key' =? key)%string then Some value
       else BrowserStorage.get prefix key' (Some win))
    /\ BrowserSessionStorage.get prefix key'
         (BrowserSessionStorage.set prefix key value (Some win))
       = (if (key' =? key)%string then Some value
          else BrowserSessionStorage.get prefix key' (Some win))
    /\ BrowserSessionStorage.get prefix key'
         (BrowserStorage.set prefix key value (Some win))
       = BrowserSessionStorage.get prefix key' (Some win)
    /\ BrowserStorage.get prefix key'
         (BrowserSessionStorage.set prefix key value (Some win))
       = BrowserStorage.get prefix key' (Some win).
Proof.
  intros prefix key value key' win.
  unfold BrowserStorage.get, BrowserStorage.set, BrowserSessionStorage.get,
    BrowserSessionStorage.set, BrowserStorage.getKey,
    BrowserSessionStorage.getKey. cbn.
  rewrite !lookup_insert, <- !(getKey_eqb prefix key key').
  repeat split; repeat case_decide; repeat case_bool_decide; congruence.
Qed.

(** X2. Removing a record, in a browser: the removed key reads [null] afterwards
    and every other key of the store reads as before. *)
Theorem browser_store_remove_get :
  forall (prefix key key' : string) (b : Browser),
    BrowserStorage.get prefix key' (BrowserStorage.remove prefix key b)
    = (if (key' =? key)%string then None else BrowserStorage.get prefix key' b)
    /\ BrowserSessionStorage.get prefix key'
         (BrowserSessionStorage.remove prefix key b)
       = (if (key' =? key)%string then None
          else BrowserSessionStorage.get prefix key' b).
Proof.
  intros prefix key key' [win |].
  - unfold BrowserStorage.get, BrowserStorage.remove, BrowserSessionStorage.get,
      BrowserSessionStorage.remove, BrowserStorage.getKey,
      BrowserSessionStorage.getKey. cbn.
    rewrite !lookup_delete, <- !(getKey_eqb prefix key key').
    repeat split; repeat case_decide; repeat case_bool_decide; congruence.
  - cbn. destruct (key' =? key)%string; split; reflexivity.
Qed.

(** X3. [clear()] and the namespaces. When the prefix [q] of a store starts
    with the prefix [p] of another store over the same browser storage (as
    ['zklogin_plus_'] starts with ['zklogin_']), [clear()] on the store with
    prefix [p] removes the records of the store with prefix [q] as well (and
    so, with [q = p], its own): each key reads [null] afterwards, unless the
    whole key is the name of a member of [Storage.prototype] or
    [Object.prototype], in which case [Object.keys] does not list it and the
    record is left as it was. *)
Theorem browser_store_clear_scope :
  forall (p q key : string) (b : Browser),
    String.prefix p q = true ->
    (shadowed (q +:+ key) = false ->
     BrowserStorage.get q key (BrowserStorage.clear p b) = None
     /\ BrowserSessionStorage.get q key (BrowserSessionStorage.clear p b) = None)
    /\ (shadowed (q +:+ key) = true ->
        BrowserStorage.get q key (BrowserStorage.clear p b)
        = BrowserStorage.get q key b
        /\ BrowserSessionStorage.get q key (BrowserSessionStorage.clear p b)
           = BrowserSessionStorage.get q key b).
Proof.
  intros p q key b Hq.
  rewrite !BrowserStorage_get_stored, !BrowserSessionStorage_get_stored.
  rewrite !BrowserStorage_clear_local, !BrowserSessionStorage_clear_session.
  rewrite (prefix_append p q key Hq).
  split; intros Hsh; rewrite Hsh; cbn [negb andb]; [| split; reflexivity].
  destruct b as [win |]; split; reflexivity.
Qed.

Section MemoryStorageFacts.
Implicit Types (m : MemoryStore).

(** Every key of the private map starts with the prefix. *)
Lemma memory_calls_prefixed cs m :
  (forall k, is_Some (ms_storage m !! k) -> String.prefix (ms_prefix m) k = true) ->
  ms_prefix (memory_calls cs m) = ms_prefix m
  /\ forall k, is_Some (ms_storage (memory_calls cs m) !! k) ->
               String.prefix (ms_prefix m) k = true.
Proof.
  revert m. induction cs as [| c cs IH]; intros m Hm; [split; [reflexivity | exact Hm] |].
  unfold memory_calls. cbn [foldl]. fold (memory_calls cs (memory_call c m)).
  assert (Hp : ms_prefix (memory_call c m) = ms_prefix m) by (destruct c; reflexivity).
  destruct (IH (memory_call c m)) as [IHp IHk].
  - rewrite Hp. intros k. destruct c as [key value | key |]; cbn.
    + unfold MemoryStorage.getKey. rewrite lookup_insert. case_decide as Hk.
      * intros _. subst k. apply prefix_append, prefix_refl.
      * apply Hm.
    + rewrite lookup_delete. case_decide; [intros [? [=]] | apply Hm].
    + rewrite clear_map_keys_lookup.
      destruct (String.prefix (ms_prefix m) k) eqn:E; [intros _; reflexivity |].
      intros H. rewrite <- E. apply Hm, H.
  - split; [congruence |]. intros k Hk. rewrite <- Hp. apply IHk, Hk.
Qed.

(** X4. [MemoryStorage]: reading back what was written. A non-empty value
    written under a key is read back under that key; an empty value is read
    back as [null], as if the key were missing; other keys read as before. *)
Theorem memory_store_set_get :
  forall (key value key' : string) m,
    MemoryStorage.get key' (MemoryStorage.set key value m)
    = (if (key' =? key)%string
       then (if (value =? "")%string then None else Some value)
       else MemoryStorage.get key' m).
Proof.
  intros key value key' m.
  unfold MemoryStorage.get, MemoryStorage.set, MemoryStorage.getKey. cbn.
  rewrite lookup_insert, <- (getKey_eqb (ms_prefix m) key key').
  case_decide as H1; case_bool_decide as H2; try congruence; reflexivity.
Qed.

(** X5. [MemoryStorage.clear()] empties the object: whatever calls were made on
    a store since it was created, after [clear()] its map holds no record. *)
Theorem memory_store_clear_empties :
  forall (prefix : option string) (cs : list MemoryCall),
    ms_storage (MemoryStorage.clear (memory_calls cs (MemoryStorage.create prefix)))
    = ∅.
Proof.
  intros prefix cs.
  destruct (memory_calls_prefixed cs (MemoryStorage.create prefix)) as [Hp Hk].
  - intros k. cbn. rewrite lookup_empty. intros [? [=]].
  - apply map_eq. intros k. rewrite lookup_empty. cbn.
    rewrite clear_map_keys_lookup. rewrite Hp.
    destruct (String.prefix _ k) eqn:Hpre; [reflexivity |].
    destruct (ms_storage _ !! k) eqn:Hlook; [| reflexivity].
    rewrite Hk in Hpre; [discriminate | eexists; exact Hlook].
Qed.

End MemoryStorageFacts.

(* ===================================================================== *)
(** ** Further properties: the notification bus *)
(* ===================================================================== *)

Section EventEmitterMore.
Context {Arg S : Type}.
Implicit Types (b : Bus Arg S) (l : Listener Arg S) (ls : list (Listener Arg S)).

Lemma indexOf_app_first l ls rest :
  indexOf l ls = None -> indexOf l (ls ++ l :: rest)%list = Some (length ls).
Proof.
  induction ls as [| l' ls IH]; cbn [indexOf app length].
  - intros _. rewrite Nat.eqb_refl. reflexivity.
  - destruct (Nat.eqb (lid l) (lid l')); [discriminate |].
    destruct (indexOf l ls); [discriminate |]. intros _. rewrite IH; reflexivity.
Qed.

Lemma delete_app_first ls l rest :
  delete (length ls) (ls ++ l :: rest)%list = (ls ++ rest)%list.
Proof. induction ls as [| l' ls IH]; cbn; [reflexivity | f_equal; exact IH]. Qed.

Lemma on_run (event : string) l b :
  observers (fst (on event l b)) = observers b
  /\ console_error (fst (on event l b)) = console_error b
  /\ forall event' : string,
       listeners (fst (on event l b)) !! event'
       = if negb (inherited event) && bool_decide (event = event')
         then entry_after_on l (listeners b !! event')
         else listeners b !! event'.
Proof.
  unfold on. destruct (inherited event); cbn [negb andb fst];
    [repeat split; reflexivity |].
  split; [destruct (listeners b !! event); reflexivity |].
  split; [destruct (listeners b !! event); reflexivity |].
  intros event'. unfold entry_after_on. case_bool_decide as Hev.
  - subst event'. destruct (listeners b !! event) as [ls |] eqn:Hls; cbn.
    + rewrite Hls. apply lookup_insert_eq.
    + rewrite !lookup_insert_eq. reflexivity.
  - destruct (listeners b !! event) as [ls |] eqn:Hls; cbn;
      rewrite ?lookup_insert_ne by exact Hev; reflexivity.
Qed.

Lemma off_run (event : string) l b :
  observers (fst (off event l b)) = observers b
  /\ console_error (fst (off event l b)) = console_error b
  /\ forall event' : string,
       listeners (fst (off event l b)) !! event'
       = if negb (inherited event) && bool_decide (event = event')
         then entry_after_off l (listeners b !! event')
         else listeners b !! event'.
Proof.
  unfold off. destruct (inherited event); cbn [negb andb fst];
    [repeat split; reflexivity |].
  destruct (listeners b !! event) as [ls |] eqn:Hls.
  - destruct (indexOf l ls) as [index |] eqn:Hi; cbn [fst];
      (split; [reflexivity |]); (split; [reflexivity |]);
      intros event'; unfold entry_after_off; case_bool_decide as Hev;
      try subst event'; rewrite ?Hls, ?Hi; cbn;
      rewrite ?lookup_insert_eq, ?lookup_insert_ne by exact Hev; reflexivity.
  - cbn [fst]. repeat split. intros event'. unfold entry_after_off.
    case_bool_decide as Hev; [subst event'; rewrite Hls |]; reflexivity.
Qed.





(** X6. [off] undoes one [on]. For a listener that is not subscribed to the
    event. Under an event name that is not the name of a member of
    [Object.prototype]: [off] changes nothing; subscribing the listener and
    unsubscribing it leaves the listeners of the event as they were;
    subscribing it twice and unsubscribing it once leaves it subscribed
    once, after the others. Under the name of such a member, [on] and [off]
    both throw a [TypeError] and change nothing. *)
Theorem off_undoes_one_on :
  forall (event : string) l b,
    indexOf l (default [] (listeners b !! event)) = None ->
    (inherited event = false ->
     off event l b = (b, Ok tt)
     /\ snd (on event l b) = Ok tt
     /\ default [] (listeners (fst (off event l (fst (on event l b)))) !! event)
        = default [] (listeners b !! event)
     /\ default [] (listeners
                      (fst (off event l
                              (fst (on event l (fst (on event l b)))))) !! event)
        = (default [] (listeners b !! event) ++ [l])%list)
    /\ (inherited event = true ->
        fst (on event l b) = b /\ is_ok (snd (on event l b)) = false
        /\ fst (off event l b) = b /\ is_ok (snd (off event l b)) = false).
Proof.
  intros event l b Hnot. split; intros Hev.
  - assert (Hon : forall b', listeners (fst (on event l b')) !! event
                             = Some (default [] (listeners b' !! event) ++ [l])%list).
    { intros b'. destruct (on_run event l b') as (_ & _ & Hl).
      rewrite Hl, Hev. cbn [negb andb].
      rewrite bool_decide_eq_true_2 by reflexivity. reflexivity. }
    assert (Hoff : forall b' ls rest,
               listeners b' !! event = Some (ls ++ l :: rest)%list ->
               indexOf l ls = None ->
               listeners (fst (off event l b')) !! event = Some (ls ++ rest)%list).
    { intros b' ls rest Hb' Hls. destruct (off_run event l b') as (_ & _ & Hl).
      rewrite Hl, Hev. cbn [negb andb].
      rewrite bool_decide_eq_true_2 by reflexivity.
      unfold entry_after_off. rewrite Hb'.
      rewrite (indexOf_app_first l ls rest Hls), delete_app_first. reflexivity. }
    split; [| split; [| split]].
    + unfold off. rewrite Hev.
      destruct (listeners b !! event) as [x |] eqn:Hx; [| reflexivity].
      cbn in Hnot. rewrite Hnot. reflexivity.
    + unfold on. rewrite Hev. reflexivity.
    + rewrite (Hoff (fst (on event l b)) (default [] (listeners b !! event)) []
                 (Hon b) Hnot).
      cbn. apply app_nil_r.
    + assert (H2 : listeners (fst (on event l (fst (on event l b)))) !! event
                   = Some (default [] (listeners b !! event) ++ [l; l])%list).
      { rewrite Hon, Hon. cbn. rewrite <- app_assoc. reflexivity. }
      rewrite (Hoff _ _ [l] H2 Hnot). reflexivity.
  - unfold on, off. rewrite Hev. repeat split.
Qed.


End EventEmitterMore.

(* ===================================================================== *)
(** ** Further properties: lib/utils and lib/providers *)
(* ===================================================================== *)

(** X9. The result of [generateZkLoginAddress]. When it returns, the token
    decoded with a non-empty [sub] and a truthy [aud], the salt converted to
    a big integer, and the record is exactly [{address, addressSeed}] with
    the values of the address library and no balance yet. When it throws,
    it throws an [Error] whose message starts with
    ["Failed to generate zkLogin address: "]. *)
Theorem generateZkLoginAddress_result :
  forall (P : Platform) (jwt : string) (userSalt : option json),
    match generateZkLoginAddress P jwt userSalt with
    | Ok v =>
        exists address pl salt addressSeed,
          jwtToAddress P jwt userSalt = Ok address
          /\ jwtDecode P jwt = Ok pl
          /\ nonempty (sub pl) = true
          /\ aud_falsy (aud pl) = false
          /\ BigInt P userSalt = Ok salt
          /\ genAddressSeed P salt "sub" (default "" (sub pl)) (aud_first (aud pl))
             = Ok addressSeed
          /\ v = JObj [("address", JStr address); ("addressSeed", JStr addressSeed)]
          /\ prop "balance" v = None
    | Throw e =>
        exists cause,
          e = JsError ("Failed to generate zkLogin address: " +:+ render cause)
    end.
Proof.
  intros P jwt userSalt. unfold generateZkLoginAddress.
  destruct (jwtToAddress P jwt userSalt) as [address | e1]; [| eauto].
  destruct (jwtDecode P jwt) as [pl | e2]; [| eauto].
  destruct (nonempty (sub pl)) eqn:Hsub; cbn [negb orb]; [| eauto].
  destruct (aud_falsy (aud pl)) eqn:Haud; [eauto |].
  destruct (BigInt P userSalt) as [salt | e3]; [| eauto].
  destruct (genAddressSeed P salt "sub" (default "" (sub pl)) (aud_first (aud pl)))
    as [seed | e4] eqn:Hseed; [| eauto].
  exists address, pl, salt, seed. repeat split; auto.
Qed.

(** X10. Which providers can be created without a custom authorization URL: the
    four built-in ones can, with the URL of the table; [custom] cannot and
    throws ["Invalid provider: custom"]. With a non-empty custom URL every
    provider is created, with that URL. *)
Theorem createOAuthProvider_authUrl :
  forall (provider : ZkLoginProvider) (clientId redirectUri : string)
         (cc : PartialOAuthConfig),
    match p_authUrl cc with
    | None =>
        match provider with
        | custom =>
            createOAuthProvider provider clientId redirectUri cc
            = Throw (JsError "Invalid provider: custom")
        | _ =>
            exists o,
              createOAuthProvider provider clientId redirectUri cc = Ok o
              /\ Some (oa_authUrl (op_config o)) = p_authUrl (OAUTH_PROVIDERS provider)
        end
    | Some u =>
        if (u =? "")%string
        then is_ok (createOAuthProvider provider clientId redirectUri cc) = false
        else exists o,
               createOAuthProvider provider clientId redirectUri cc = Ok o
               /\ oa_authUrl (op_config o) = u
    end.
Proof.
  intros provider clientId redirectUri [c r sc [u |]]; cbn [p_authUrl].
  - unfold createOAuthProvider, spread. cbn.
    destruct (String.eqb_spec u "") as [-> | Hne]; [reflexivity |].
    eexists. split; reflexivity.
  - destruct provider; cbn; try reflexivity; eexists; split; reflexivity.
Qed.

(** X11. The two URL builders agree. For google and twitch, which take no
    provider-specific parameter, the provider object configured with scope
    ['openid email'] builds the same URL as [buildOAuthUrl]. *)
Theorem buildOAuthUrl_agrees_with_provider :
  forall (P : Platform) (clientId redirectUri nonce : string)
         (state : option string),
    ((fun o => buildAuthUrl P o nonce state) <$> ok_value
       (createOAuthProvider google clientId redirectUri
          (mkPartialOAuthConfig None None (Some "openid email") None)))
    = Some (buildOAuthUrl P known_google clientId redirectUri nonce state)
    /\ ((fun o => buildAuthUrl P o nonce state) <$> ok_value
          (createOAuthProvider twitch clientId redirectUri
             (mkPartialOAuthConfig None None (Some "openid email") None)))
       = Some (buildOAuthUrl P known_twitch clientId redirectUri nonce state).
Proof. intros. split; reflexivity. Qed.

Lemma first_nonempty_not_empty (x y : option string) :
  first_nonempty x y <> Some "".
Proof.
  unfold first_nonempty, nonempty.
  destruct x as [sx |]; [destruct (String.eqb_spec sx "") as [-> | Hx] |];
    cbn [negb];
    try (destruct y as [sy |]; [destruct (String.eqb_spec sy "") |]; cbn [negb]);
    congruence.
Qed.

Lemma validateOAuthCallback_is_ok (cb : OAuthCallback) :
  cb_error cb <> Some "" ->
  cb_id_token cb <> Some "" ->
  is_ok (validateOAuthCallback cb)
  = bool_decide (cb_error cb = None) && bool_decide (is_Some (cb_id_token cb)).
Proof.
  destruct cb as [t a s e]. cbn [cb_error cb_id_token]. intros He Ht.
  unfold validateOAuthCallback, nonempty. cbn [cb_error cb_id_token].
  destruct e as [se |].
  - destruct (String.eqb_spec se ""); [congruence |]. cbn [negb is_ok].
    rewrite bool_decide_eq_false_2 by discriminate. reflexivity.
  - rewrite (bool_decide_eq_true_2 (None = None)) by reflexivity. cbn [andb].
    destruct t as [st |].
    + destruct (String.eqb_spec st ""); [congruence |]. cbn [negb is_ok].
      rewrite bool_decide_eq_true_2 by (eexists; reflexivity). reflexivity.
    + cbn [negb is_ok].
      rewrite bool_decide_eq_false_2 by (intros [? [=]]). reflexivity.
Qed.

(** X12. What [parseOAuthCallback] returns and what [validateOAuthCallback]
    accepts. No field of the parsed callback is ever the empty string (an
    empty parameter counts as missing); validation succeeds exactly when the
    [error] field is missing and the [id_token] field is there; and when a
    non-empty URL is passed, the window's location is not consulted. *)
Theorem parseOAuthCallback_fields :
  forall (P : Platform) (url : option string) (b b' : Browser),
    cb_id_token (parseOAuthCallback P url b) <> Some ""
    /\ cb_access_token (parseOAuthCallback P url b) <> Some ""
    /\ cb_state (parseOAuthCallback P url b) <> Some ""
    /\ cb_error (parseOAuthCallback P url b) <> Some ""
    /\ is_ok (validateOAuthCallback (parseOAuthCallback P url b))
       = bool_decide (cb_error (parseOAuthCallback P url b) = None)
         && bool_decide (is_Some (cb_id_token (parseOAuthCallback P url b)))
    /\ (nonempty url = true ->
        parseOAuthCallback P url b' = parseOAuthCallback P url b).
Proof.
  intros P url b b'.
  assert (H4 : cb_id_token (parseOAuthCallback P url b) <> Some ""
               /\ cb_access_token (parseOAuthCallback P url b) <> Some ""
               /\ cb_state (parseOAuthCallback P url b) <> Some ""
               /\ cb_error (parseOAuthCallback P url b) <> Some "")
    by (repeat split; apply first_nonempty_not_empty).
  destruct H4 as (H1 & H2 & H3 & H4).
  repeat split; try assumption.
  - apply validateOAuthCallback_is_ok; assumption.
  - intros Hurl. unfold parseOAuthCallback. rewrite Hurl. reflexivity.
Qed.

(* ===================================================================== *)
(** ** Further properties: the client's steps *)
(* ===================================================================== *)

Section ClientMore.
Variable P : Platform.
Context {S : Type}.
Implicit Types (w : @World S) (s : ZkLoginState).

(** X13. Step 1, when the chain answers with an epoch. The call completes with
    key material made of the fresh pair and randomness, [maxEpoch] the
    reported epoch plus 10 as numbers (exactly ten epochs ahead for epochs up
    to [2^53 - 10]) and the nonce of the three; the state holds that material
    and [currentStep] is the larger of its old value and 1; the
    notifications are [keypair:generated] with the material and then
    [step:changed] with the new step; no request is put in flight and the
    durable store is not touched. *)
Theorem generateEphemeralKeyPair_succeeds :
  forall w (epoch : Z) (fresh : Ed25519Keypair) (fresh_randomness : string),
    let maxEpoch := calculateMaxEpoch (getCurrentEpoch epoch) in
    let k := mkEphemeralKeyPairState fresh maxEpoch fresh_randomness
               (generateNonce P (getPublicKey fresh) maxEpoch fresh_randomness) in
    let run := generateEphemeralKeyPair_resume P (Ok epoch) fresh fresh_randomness w in
    snd run = Ok k
    /\ (0 <= epoch <= 2 ^ 53 - 10 -> maxEpoch = epoch + 10)
    /\ state (fst run)
       = with_currentStep (Z.max (currentStep (state w)) 1)
           (with_ephemeralKeyPair k (state w))
    /\ emitted (fst run)
       = (emitted w ++ [("keypair:generated", [ArgKeyPair k]);
                        ("step:changed", [ArgStep (Z.max (currentStep (state w)) 1)])])%list
    /\ inflight (fst run) = inflight w
    /\ forall key, stored_local (browser (fst run)) key = stored_local (browser w) key.
Proof.
  intros w epoch fresh fresh_randomness maxEpoch k run. subst run k maxEpoch.
  wp_here. unfold generateEphemeralKeyPair_resume. wp_run.
  rewrite <- app_assoc. repeat split.
  - apply calculateMaxEpoch_exact.
  - intros key. destruct (browser w); reflexivity.
Qed.

(** X14. Step 6, when the prover answers. The call completes with the answer as
    proof; the state holds it, [isReady] is true and [currentStep] is the
    larger of its old value and 6; the notifications are [proof:received],
    [step:changed] and [ready], in that order; in a browser the proof is
    written to the ephemeral store under [zk_proof]. *)
Theorem getZkProof_succeeds :
  forall w (data : json),
    let run := getZkProof_resume P (HttpOk data) w in
    snd run = Ok data
    /\ zkProof (state (fst run)) = Some data
    /\ isReady (state (fst run)) = true
    /\ currentStep (state (fst run)) = Z.max (currentStep (state w)) 6
    /\ emitted (fst run)
       = (emitted w ++ [("proof:received", [ArgJson data]);
                        ("step:changed", [ArgStep (Z.max (currentStep (state w)) 6)]);
                        ("ready", [])])%list
    /\ BrowserSessionStorage.get (r_storagePrefix (config w)) STORAGE_KEYS.ZK_PROOF
         (browser (fst run))
       = match browser w with
         | Some _ => Some (JSON_stringify P data)
         | None => None
         end.
Proof.
  intros w data run. subst run.
  wp_here. unfold getZkProof_resume. cbn [requestZkProof_resume]. wp_run.
  rewrite <- !app_assoc. repeat split.
  destruct (browser w) as [win |]; [| reflexivity].
  cbn. apply lookup_insert_eq.
Qed.

(** X15. [refreshBalance] is quiet. Neither part of it (the call, and the
    continuation after the balance lookup), whether it returns or throws,
    records an error, sends a notification, changes [currentStep] or
    [isReady], or touches the stores or the listeners: unlike every other
    operation that can fail, it does not go through [handleError]. Called
    without an address it throws a plain [Error] and leaves the client
    exactly as it was. *)
Theorem refreshBalance_is_quiet :
  forall w (part : option (result string)),
    let run :=
      match part with
      | None => void refreshBalance_begin w
      | Some rpc => void (refreshBalance_resume rpc) w
      end in
    emitted (fst run) = emitted w
    /\ error (state (fst run)) = error (state w)
    /\ currentStep (state (fst run)) = currentStep (state w)
    /\ isReady (state (fst run)) = isReady (state w)
    /\ browser (fst run) = browser w
    /\ bus (fst run) = bus w
    /\ (present (zkLoginAddress (state w)) = false ->
        refreshBalance_begin w
        = (w, Throw (JsError "ZkLogin address not generated"))).
Proof.
  intros w part run. subst run.
  assert (Hlast : present (zkLoginAddress (state w)) = false ->
                  refreshBalance_begin w
                  = (w, Throw (JsError "ZkLogin address not generated"))).
  { intros Hno. unfold refreshBalance_begin, bind, this_state. cbn.
    rewrite Hno. reflexivity. }
  destruct part as [rpc |]; wp_here; unfold void; unfold_client; wp_run;
    repeat split;
    first [exact Hlast | reflexivity | assumption | symmetry; assumption].
Qed.

(** X16. A failing faucet request. At whichever point [requestTestTokens] fails,
    it records the message in [state.error], sends [error] as its last
    notification and throws a [ZkLoginError] with code
    [FAUCET_REQUEST_FAILED] and no step; [currentStep] and the sub-records are
    left as they were. *)
Theorem requestTestTokens_failure :
  forall w (phase : option (HttpAnswer + result string)) (e : exn),
    let run :=
      match phase with
      | None => void requestTestTokens_begin w
      | Some (inl answer) => void (requestTestTokens_funded answer) w
      | Some (inr rpc) => requestTestTokens_resume rpc w
      end in
    snd run = Throw e ->
    exists message,
      e = ZkLoginError message (Some "FAUCET_REQUEST_FAILED") None
      /\ error (state (fst run)) = Some message
      /\ last (emitted (fst run)) = Some ("error", [ArgMessage message])
      /\ currentStep (state (fst run)) = currentStep (state w)
      /\ zkLoginAddress (state (fst run)) = zkLoginAddress (state w)
      /\ isReady (state (fst run)) = isReady (state w).
Proof.
  intros w phase e run. subst run.
  destruct phase as [[answer | rpc] |]; wp_here; unfold void; unfold_client;
    wp_run; try discriminate;
    (intros [= <-]; eexists; repeat split;
     first [apply last_snoc | reflexivity | assumption | symmetry; assumption]).
Qed.

(** X17. A failed step changes nothing else. When a step operation fails, the
    two stores, the browser location, the requests in flight, the five
    sub-records and [isReady] are as before the call; only [state.error],
    [currentStep] and the notification log have changed. *)
Theorem failed_step_changes_nothing_else :
  forall (m : StepMethod) w (e : exn),
    snd (run_step P m w) = Throw e ->
    browser (fst (run_step P m w)) = browser w
    /\ inflight (fst (run_step P m w)) = inflight w
    /\ ephemeralKeyPair (state (fst (run_step P m w))) = ephemeralKeyPair (state w)
    /\ jwt (state (fst (run_step P m w))) = jwt (state w)
    /\ userSalt (state (fst (run_step P m w))) = userSalt (state w)
    /\ zkLoginAddress (state (fst (run_step P m w))) = zkLoginAddress (state w)
    /\ zkProof (state (fst (run_step P m w))) = zkProof (state w)
    /\ isReady (state (fst (run_step P m w))) = isReady (state w).
Proof.
  intros m w e. wp_here.
  destruct m; unfold run_step, void; unfold_client; wp_run;
    try discriminate; intros _; repeat split;
    first [reflexivity | assumption | symmetry; assumption].
Qed.

(** X18. A transaction that goes through changes nothing. Each part of
    [executeTransaction] that completes (the call, the continuation after
    signing, the continuation after execution) leaves the state, the stores
    and the notification log as they were; the last one returns the digest
    the chain reported. *)
Theorem executeTransaction_leaves_state :
  forall (m : StepMethod) w,
    step_number m = 7 ->
    snd (run_step P m w) = Ok tt ->
    state (fst (run_step P m w)) = state w
    /\ browser (fst (run_step P m w)) = browser w
    /\ emitted (fst (run_step P m w)) = emitted w
    /\ match m with
       | Step7_executed executeRes =>
           exists digest, executeRes = Ok digest
                          /\ snd (executeTransaction_executed executeRes w) = Ok digest
       | _ => True
       end.
Proof.
  intros m w Hseven.
  destruct m; try discriminate Hseven; clear Hseven; wp_here;
    unfold run_step, void; unfold_client; wp_run;
    try discriminate; intros _; repeat split;
    first [reflexivity | assumption | symmetry; assumption | idtac].
  eexists. split; reflexivity.
Qed.

(** X19. Step 3, when it returns. The callback carried a non-empty [id_token]
    and no error, the token decoded to the record returned, the state holds
    that record, [currentStep] is the larger of its old value and 3, the
    notifications are [jwt:received] and [step:changed], and step 4 has been
    started: its salt request is the last one in flight and carries what the
    ephemeral store holds under [jwt_token], which in a browser is the token
    just received and without a window is nothing. *)
Theorem handleOAuthCallback_succeeds :
  forall w (url : option string) (now : Z) (j : JwtState),
    snd (handleOAuthCallback P url now w) = Ok j ->
    exists id_token,
      cb_id_token (parseOAuthCallback P url (browser w)) = Some id_token
      /\ cb_error (parseOAuthCallback P url (browser w)) = None
      /\ decodeJwtToken P now id_token = Ok j
      /\ jwt (state (fst (handleOAuthCallback P url now w))) = Some j
      /\ currentStep (state (fst (handleOAuthCallback P url now w)))
         = Z.max (currentStep (state w)) 3
      /\ emitted (fst (handleOAuthCallback P url now w))
         = (emitted w ++ [("jwt:received", [ArgJwt j]);
                          ("step:changed", [ArgStep (Z.max (currentStep (state w)) 3)])])%list
      /\ inflight (fst (handleOAuthCallback P url now w))
         = (inflight w
            ++ [AwaitSalt (match browser w with
                           | Some _ => Some id_token
                           | None => None
                           end)])%list.
Proof.
  intros w url now j. wp_here. unfold handleOAuthCallback.
  repeat wp_step.
  pose proof (validateOAuthCallback_is_ok (parseOAuthCallback P url (browser w))
                (first_nonempty_not_empty _ _) (first_nonempty_not_empty _ _))
    as Hval.
  destruct (validateOAuthCallback (parseOAuthCallback P url (browser w)))
    as [[] | ev] eqn:Hv; [| wp_run; discriminate].
  cbn [is_ok] in Hval. symmetry in Hval. apply andb_true_iff in Hval.
  destruct Hval as [Herr Htok].
  apply bool_decide_eq_true_1 in Herr. apply bool_decide_eq_true_1 in Htok.
  destruct Htok as [id_token Htok]. rewrite Htok. cbn [default from_option id].
  repeat wp_step.
  destruct (decodeJwtToken P now id_token) as [j' | ed] eqn:Hdec;
    [| wp_run; discriminate].
  wp_run. intros [= <-]. exists id_token.
  rewrite <- !app_assoc. repeat split; try assumption.
  f_equal. f_equal. f_equal.
  destruct (browser w) as [win |]; [| reflexivity].
  cbn. apply lookup_insert_eq.
Qed.

(** X20. A failure of the step started automatically does not fail the step
    that started it. When the salt service answers but the state holds no
    token, step 4 still returns the salt record and stores it, yet the
    step 5 it starts fails at once: [state.error] holds the message of
    step 5, [currentStep] is 5, the last notification is [error], and no
    balance request is in flight. *)
Theorem chained_failure_is_swallowed :
  forall w (answer : result json) (now : Z) (salt : option json),
    generateUserSalt_resume answer = Ok salt ->
    jwt (state w) = None ->
    let run := generateSalt_resume P answer now w in
    let saltState := JObj (literal [("salt", salt); ("createdAt", Some (JNum now))]) in
    snd run = Ok saltState
    /\ userSalt (state (fst run)) = Some saltState
    /\ error (state (fst run))
       = Some "Failed to generate address: Error: JWT not available"
    /\ currentStep (state (fst run)) = 5
    /\ last (emitted (fst run))
       = Some ("error",
               [ArgMessage "Failed to generate address: Error: JWT not available"])
    /\ inflight (fst run) = inflight w.
Proof.
  intros w answer now salt Hsalt Hjwt run saltState. subst run saltState.
  wp_here. unfold generateSalt_resume. rewrite Hsalt.
  repeat wp_step. rewrite Hjwt. wp_run. repeat split. apply last_snoc.
Qed.

(** X21. Step 2. When [redirectToOAuth] returns, the state held key material,
    the provider could be created, there was a window, and the window's
    location is now the authorization URL built with the nonce of the stored
    key material; the state, the stores and the notification log are
    untouched. For the provider [custom] the call always fails, since the
    client passes no authorization URL. *)
Theorem redirectToOAuth_effect :
  forall w (provider : ZkLoginProvider) (oauth_state : option string),
    match snd (redirectToOAuth P provider oauth_state w) with
    | Ok _ =>
        exists k o win,
          ephemeralKeyPair (state w) = Some k
          /\ createOAuthProvider provider (r_clientId (config w))
               (r_redirectUri (config w)) (mkPartialOAuthConfig None None None None)
             = Ok o
          /\ browser w = Some win
          /\ browser (fst (redirectToOAuth P provider oauth_state w))
             = Some (with_location_href (buildAuthUrl P o (nonce k) oauth_state) win)
          /\ state (fst (redirectToOAuth P provider oauth_state w)) = state w
          /\ emitted (fst (redirectToOAuth P provider oauth_state w)) = emitted w
          /\ provider <> custom
    | Throw _ => browser (fst (redirectToOAuth P provider oauth_state w)) = browser w
    end.
Proof.
  intros w provider oauth_state. wp_here. unfold redirectToOAuth.
  repeat wp_step.
  destruct (ephemeralKeyPair (state w)) as [k |] eqn:Hk; [| wp_run; reflexivity].
  repeat wp_step.
  destruct (createOAuthProvider provider (r_clientId (config w))
              (r_redirectUri (config w)) (mkPartialOAuthConfig None None None None))
    as [o | eo] eqn:Ho; [| wp_run; reflexivity].
  repeat wp_step.
  - match goal with H : browser w = Some ?x |- _ => exists k, o, x end.
    repeat split; auto. intros ->. discriminate Ho.
  - symmetry. assumption.
Qed.

Ltac persists_leaf :=
  unfold persists; wp_simpl; repeat split; intros;
  first [ assumption
        | eexists; reflexivity
        | reflexivity
        | match goal with H : is_Some None |- _ => destruct H as [? [=]] end
        | discriminate ].

(** X22. Only [reset] takes anything away. Whatever the client does next (any
    call, any answer to a request in flight, success or failure), unless it
    is [reset()], each sub-record that was present is still present,
    [isReady] stays true once true, and a recorded error stays recorded: no
    successful step clears [state.error]. *)
Theorem only_reset_removes :
  forall w w',
    step P w w' ->
    w' = fst (reset w) \/ persists (state w) (state w').
Proof.
  intros w w' Hstep.
  destruct Hstep;
    try (left; reflexivity);
    right;
    try (unfold persists; cbn; tauto);
    wp_here; unfold_client; wp_run; persists_leaf.
Qed.

End ClientMore.

(* ===================================================================== *)
(** ** Further properties: construction and restoration *)
(* ===================================================================== *)

Lemma shrinks_refl (b : Browser) : shrinks b b.
Proof. repeat split; auto. Qed.

Lemma shrinks_local_remove (b b' : Browser) prefix key :
  shrinks b b' -> shrinks b (BrowserStorage.remove prefix key b').
Proof.
  intros (Hl & Hs & Hh). destruct b' as [win |]; [| repeat split; auto].
  repeat split.
  - intros k v. cbn. rewrite lookup_delete. case_decide; [discriminate |].
    apply Hl.
  - exact Hs.
  - exact Hh.
Qed.

Lemma shrinks_session_remove (b b' : Browser) prefix key :
  shrinks b b' -> shrinks b (BrowserSessionStorage.remove prefix key b').
Proof.
  intros (Hl & Hs & Hh). destruct b' as [win |]; [| repeat split; auto].
  repeat split.
  - exact Hl.
  - intros k v. cbn. rewrite lookup_delete. case_decide; [discriminate |].
    apply Hs.
  - exact Hh.
Qed.

Section RestorationMore.
Variable P : Platform.
Context {S : Type}.
Implicit Types (w : @World S) (s : ZkLoginState).

Lemma restoreState_silent now w :
  wp (restoreState P now)
     (fun w' _ =>
        config w' = config w
        /\ bus w' = bus w
        /\ emitted w' = emitted w
        /\ error (state w') = error (state w)
        /\ shrinks (browser w) (browser w')
        /\ (inflight w' = inflight w
            \/ inflight w' = (inflight w ++ [AwaitEpoch])%list)) w.
Proof.
  unfold_client. wp_run; repeat split; auto;
    repeat (first [apply shrinks_local_remove | apply shrinks_session_remove]);
    apply shrinks_refl.
Qed.

(** X23. When construction succeeds and when it fails. The constructor
    throws exactly when [clientId] or [redirectUri] is empty, with the
    message for the first one missing; otherwise it returns a client,
    whatever the two stores hold: nothing restoration finds there makes
    construction fail. *)
Theorem construct_outcome :
  forall (c : ZkLoginConfig) (b : Browser) (s0 : S) (now : Z),
    match construct P c b s0 now with
    | Ok w => clientId c <> "" /\ redirectUri c <> ""
    | Throw e =>
        (clientId c = "" /\ e = JsError "clientId is required")
        \/ (clientId c <> "" /\ redirectUri c = ""
            /\ e = JsError "redirectUri is required")
    end.
Proof.
  intros c b s0 now. unfold construct, validateConfig.
  destruct (String.eqb_spec (clientId c) "") as [Hc | Hc]; [left; auto |].
  destruct (String.eqb_spec (redirectUri c) "") as [Hr | Hr]; [right; auto |].
  pose proof (restoreState_ok P now
                (mkWorld (fill_config c) initial_state b (mkBus ∅ s0 []) [] []))
    as Hok.
  destruct (restoreState P now _) as [w' r].
  cbn in Hok. subst r. auto.
Qed.

(** X24. Construction is silent and only removes. The client the constructor
    returns has sent no notification, has no recorded error and no listener;
    every record in the two stores afterwards was there before with the same
    value (restoration writes nothing, it only drops records); and at most
    one request is in flight, the epoch request of step 1. *)
Theorem construct_silent_and_only_removes :
  forall (c : ZkLoginConfig) (b : Browser) (s0 : S) (now : Z) w,
    construct P c b s0 now = Ok w ->
    emitted w = []
    /\ error (state w) = None
    /\ listeners (bus w) = ∅
    /\ shrinks b (browser w)
    /\ (inflight w = [] \/ inflight w = [AwaitEpoch]).
Proof.
  intros c b s0 now w. unfold construct.
  destruct (validateConfig c); [| discriminate].
  pose proof (restoreState_silent now
                (mkWorld (fill_config c) initial_state b (mkBus ∅ s0 []) [] []))
    as Hs.
  unfold wp in Hs. destruct (restoreState P now _) as [w' [[] | e]];
    [| discriminate].
  intros [= <-]. cbn in Hs.
  destruct Hs as (_ & Hbus & Hem & Herr & Hshr & Hin).
  rewrite Hbus. repeat split; auto; apply Hshr.
Qed.

(** X25. A rejected secret key abandons restoration. When the ephemeral store
    holds the three key-material records and the key library rejects the
    stored secret key, the constructor still succeeds, but nothing at all is
    restored (the state is [{ currentStep: 0, isReady: false }] whatever the
    other records are), no record is removed, and step 1 is not started: no
    request is in flight. *)
Theorem restoration_abandoned_on_rejected_key :
  forall (c : ZkLoginConfig) (b : Browser) (s0 : S) (now : Z),
    validateConfig c = Ok tt ->
    abandoned P (r_storagePrefix (fill_config c)) b = true ->
    construct P c b s0 now
    = Ok (mkWorld (fill_config c) initial_state b (mkBus ∅ s0 []) [] []).
Proof.
  intros c b s0 now Hc Hab.
  rewrite (construct_run P c b s0 now Hc). f_equal.
  unfold abandoned, key_complete, key_accepted in Hab.
  apply andb_true_iff in Hab. destruct Hab as [Hcomplete Hrej].
  unfold restoreState, try_catch, bind at 1, restore_ephemeralKeyPair.
  unfold bind, sessionStorage_get. cbn [config browser fst snd].
  rewrite Hcomplete.
  destruct (fromSecretKey P _) as [kp | e]; [discriminate |].
  reflexivity.
Qed.

Lemma sget_after_sremove prefix key key' (b : Browser) :
  key' <> key ->
  BrowserSessionStorage.get prefix key' (BrowserSessionStorage.remove prefix key b)
  = BrowserSessionStorage.get prefix key' b.
Proof.
  intros Hne. destruct b as [win |]; [| reflexivity]. cbn.
  apply lookup_delete_ne. unfold BrowserSessionStorage.getKey.
  intros H. apply Hne. symmetry. exact (append_inj_r prefix _ _ H).
Qed.

Lemma lget_after_lremove prefix key key' (b : Browser) :
  key' <> key ->
  BrowserStorage.get prefix key' (BrowserStorage.remove prefix key b)
  = BrowserStorage.get prefix key' b.
Proof.
  intros Hne. destruct b as [win |]; [| reflexivity]. cbn.
  apply lookup_delete_ne. unfold BrowserStorage.getKey.
  intros H. apply Hne. symmetry. exact (append_inj_r prefix _ _ H).
Qed.

Lemma sget_after_lremove prefix key key' (b : Browser) :
  BrowserSessionStorage.get prefix key' (BrowserStorage.remove prefix key b)
  = BrowserSessionStorage.get prefix key' b.
Proof. destruct b; reflexivity. Qed.

Lemma lget_after_sremove prefix key key' (b : Browser) :
  BrowserStorage.get prefix key' (BrowserSessionStorage.remove prefix key b)
  = BrowserStorage.get prefix key' b.
Proof. destruct b; reflexivity. Qed.

Lemma is_ok_decodeJwtToken now raw :
  is_ok (decodeJwtToken P now raw) = is_ok (jwtDecode P raw).
Proof. unfold decodeJwtToken. destruct (jwtDecode P raw); reflexivity. Qed.

Ltac norm_gets :=
  repeat first
    [ rewrite sget_after_lremove
    | rewrite lget_after_sremove
    | rewrite sget_after_sremove by discriminate
    | rewrite lget_after_lremove by discriminate ].

(** X26. What restoration earns, in general. Unless restoration is abandoned at
    the key material, the constructor leaves each sub-record present exactly
    when its fragment is recovered from the stores (a complete key-material
    fragment with an accepted key; a non-empty token that decodes; a
    non-empty salt, address or proof record that parses), [isReady] true
    exactly when the proof is recovered, and [currentStep] equal to the
    largest step number among the recovered fragments (1, 3, 4, 5, 6), or 0
    when none is: each fragment earns its step on its own. *)
Theorem restoration_earns_steps :
  forall (c : ZkLoginConfig) (b : Browser) (s0 : S) (now : Z),
    validateConfig c = Ok tt ->
    abandoned P (r_storagePrefix (fill_config c)) b = false ->
    exists w,
      construct P c b s0 now = Ok w
      /\ currentStep (state w) = restored_step P (r_storagePrefix (fill_config c)) b
      /\ isReady (state w) = proof_recovered P (r_storagePrefix (fill_config c)) b
      /\ defined (ephemeralKeyPair (state w))
         = key_recovered P (r_storagePrefix (fill_config c)) b
      /\ defined (jwt (state w))
         = token_recovered P (r_storagePrefix (fill_config c)) b
      /\ defined (userSalt (state w))
         = salt_recovered P (r_storagePrefix (fill_config c)) b
      /\ defined (zkLoginAddress (state w))
         = address_recovered P (r_storagePrefix (fill_config c)) b
      /\ defined (zkProof (state w))
         = proof_recovered P (r_storagePrefix (fill_config c)) b.
Proof.
  intros c b s0 now Hc Hab.
  rewrite (construct_run P c b s0 now Hc).
  eexists. split; [reflexivity |].
  revert Hab.
  unfold restored_step, abandoned, key_recovered, token_recovered,
    salt_recovered, address_recovered, proof_recovered, parses, key_complete,
    key_accepted.
  rewrite <- !(is_ok_decodeJwtToken now).
  set (w0 := mkWorld (fill_config c) initial_state b (mkBus ∅ s0 []) [] []).
  wp_at w0. subst w0. unfold_client.
  repeat first [wp_step | progress norm_gets | wp_case];
    cbn [andb negb is_ok credit defined];
    intros Hab; try discriminate Hab;
    repeat split; lia.
Qed.

Lemma step1_browser w epoch fresh fresh_randomness :
  browser (fst (generateEphemeralKeyPair_resume P (Ok epoch) fresh
                  fresh_randomness w))
  = BrowserSessionStorage.set (r_storagePrefix (config w))
      STORAGE_KEYS.RANDOMNESS fresh_randomness
      (BrowserSessionStorage.set (r_storagePrefix (config w))
         STORAGE_KEYS.MAX_EPOCH (Number_toString P (calculateMaxEpoch (getCurrentEpoch epoch)))
         (BrowserSessionStorage.set (r_storagePrefix (config w))
            STORAGE_KEYS.EPHEMERAL_KEYPAIR (getSecretKey fresh) (browser w))).
Proof.
  wp_here. unfold generateEphemeralKeyPair_resume. wp_run. reflexivity.
Qed.

Lemma sset_is_Some prefix key value (b : Browser) :
  is_Some b -> is_Some (BrowserSessionStorage.set prefix key value b).
Proof. intros [win ->]. eexists. reflexivity. Qed.

Lemma sget_after_sset prefix key key' value (b : Browser) :
  is_Some b ->
  BrowserSessionStorage.get prefix key'
    (BrowserSessionStorage.set prefix key value b)
  = if (key' =? key)%string then Some value
    else BrowserSessionStorage.get prefix key' b.
Proof.
  intros [win ->].
  unfold BrowserSessionStorage.get, BrowserSessionStorage.set,
    BrowserSessionStorage.getKey. cbn.
  rewrite lookup_insert, <- (getKey_eqb prefix key key').
  case_decide; case_bool_decide; congruence.
Qed.

(** X27. Key material survives a reload, except for its nonce. After step 1 has
    succeeded in a browser, a client constructed over the same stores with
    the same prefix (the key library reading back the secret key it wrote,
    and the text of [maxEpoch] parsing back to it) holds the same key pair,
    [maxEpoch] and randomness, but with the empty string as nonce; it does
    not start step 1 again. *)
Theorem key_material_survives_reload :
  forall w (win : Window) (epoch : Z) (fresh : Ed25519Keypair)
         (fresh_randomness : string) (c : ZkLoginConfig) (s0 : S) (now : Z),
    browser w = Some win ->
    validateConfig c = Ok tt ->
    r_storagePrefix (fill_config c) = r_storagePrefix (config w) ->
    getSecretKey fresh <> "" ->
    fresh_randomness <> "" ->
    Number_toString P (calculateMaxEpoch (getCurrentEpoch epoch)) <> "" ->
    fromSecretKey P (getSecretKey fresh) = Ok fresh ->
    parseInt P (Number_toString P (calculateMaxEpoch (getCurrentEpoch epoch)))
    = calculateMaxEpoch (getCurrentEpoch epoch) ->
    exists w2,
      construct P c
        (browser (fst (generateEphemeralKeyPair_resume P (Ok epoch) fresh
                         fresh_randomness w))) s0 now = Ok w2
      /\ ephemeralKeyPair (state w2)
         = Some (mkEphemeralKeyPairState fresh (calculateMaxEpoch (getCurrentEpoch epoch)) fresh_randomness "")
      /\ inflight w2 = [].
Proof.
  intros w win epoch fresh rnd c s0 now Hb Hc Hp Hsk Hrnd Hstr Hfrom Hparse.
  rewrite (construct_run P c _ s0 now Hc).
  eexists. split; [reflexivity |].
  rewrite step1_browser, Hb, <- Hp.
  set (p := r_storagePrefix (fill_config c)).
  set (b1 := BrowserSessionStorage.set p STORAGE_KEYS.RANDOMNESS rnd
               (BrowserSessionStorage.set p STORAGE_KEYS.MAX_EPOCH
                  (Number_toString P (calculateMaxEpoch (getCurrentEpoch epoch)))
                  (BrowserSessionStorage.set p STORAGE_KEYS.EPHEMERAL_KEYPAIR
                     (getSecretKey fresh) (Some win)))).
  assert (Hwin : is_Some (Some win)) by (eexists; reflexivity).
  assert (Hk : BrowserSessionStorage.get p STORAGE_KEYS.EPHEMERAL_KEYPAIR b1
               = Some (getSecretKey fresh)).
  { subst b1. rewrite !sget_after_sset by (repeat apply sset_is_Some; exact Hwin).
    reflexivity. }
  assert (Hm : BrowserSessionStorage.get p STORAGE_KEYS.MAX_EPOCH b1
               = Some (Number_toString P (calculateMaxEpoch (getCurrentEpoch epoch)))).
  { subst b1. rewrite !sget_after_sset by (repeat apply sset_is_Some; exact Hwin).
    reflexivity. }
  assert (Hr : BrowserSessionStorage.get p STORAGE_KEYS.RANDOMNESS b1 = Some rnd).
  { subst b1. rewrite !sget_after_sset by (repeat apply sset_is_Some; exact Hwin).
    reflexivity. }
  clearbody b1.
  assert (Hne : forall x : string, x <> "" -> nonempty (Some x) = true).
  { intros x Hx. cbn. apply negb_true_iff, String.eqb_neq, Hx. }
  set (w0 := mkWorld (fill_config c) initial_state b1 (mkBus ∅ s0 []) [] []).
  wp_at w0. subst w0. unfold restoreState, restore_ephemeralKeyPair.
  repeat wp_step. fold p. rewrite Hk, Hm, Hr.
  rewrite !Hne by assumption. cbn [andb default from_option id].
  rewrite Hfrom, Hparse. unfold_client.
  repeat first [wp_step | wp_case]; repeat split.
Qed.

(** X28. Step 4 starts step 5. When the salt service answers and the state holds
    a token from which the address can be derived, step 4 returns the salt
    record [{salt, createdAt}], [currentStep] is the larger of its old value
    and 4, no error is recorded, and the balance request of step 5 is put in
    flight for the address derived from the token and the new salt. *)
Theorem salt_success_starts_address :
  forall w (answer : result json) (now : Z) (salt : option json)
         (j : JwtState) (addressState : json),
    generateUserSalt_resume answer = Ok salt ->
    jwt (state w) = Some j ->
    generateZkLoginAddress P (token j) salt = Ok addressState ->
    let run := generateSalt_resume P answer now w in
    let saltState := JObj (literal [("salt", salt); ("createdAt", Some (JNum now))]) in
    snd run = Ok saltState
    /\ userSalt (state (fst run)) = Some saltState
    /\ currentStep (state (fst run)) = Z.max (currentStep (state w)) 4
    /\ error (state (fst run)) = error (state w)
    /\ inflight (fst run) = (inflight w ++ [AwaitBalance addressState])%list.
Proof.
  intros w answer now salt j addressState Hsalt Hjwt Hgen run saltState.
  subst run saltState.
  assert (Hprop : member "salt"
                    (Some (JObj (literal [("salt", salt);
                                          ("createdAt", Some (JNum now))])))
                  = Ok salt) by (destruct salt; reflexivity).
  wp_here. unfold generateSalt_resume. rewrite Hsalt.
  repeat wp_step. rewrite Hjwt. repeat wp_step.
  cbn [present truthy negb]. repeat wp_step.
  rewrite Hprop. repeat wp_step. rewrite Hgen. repeat wp_step.
  repeat split.
Qed.

(** X29. Step 5 starts step 6. When the state holds key material, a token and a
    salt record and the extended public key can be computed, the
    continuation of step 5 returns the address record with its balance (["0"]
    if the lookup failed), stores it in the state, [currentStep] is the
    larger of its old value and 5, and the proof request of step 6 is put in
    flight with the token, the extended key, [maxEpoch] and randomness of the
    key material, and the [salt] field of the stored salt record. *)
Theorem address_success_starts_proof :
  forall w (fields : list (string * json)) (rpc : result string)
         (k : EphemeralKeyPairState) (j : JwtState) (saltState : json)
         (extendedPublicKey : string),
    ephemeralKeyPair (state w) = Some k ->
    jwt (state w) = Some j ->
    userSalt (state w) = Some saltState ->
    truthy saltState = true ->
    getExtendedPublicKey P (getPublicKey (keyPair k)) = Ok extendedPublicKey ->
    let run := generateAddress_resume P (JObj fields) rpc w in
    let balance := match rpc with Ok total => total | Throw _ => "0" end in
    let addressState := JObj (assoc_set "balance" (JStr balance) fields) in
    snd run = Ok addressState
    /\ zkLoginAddress (state (fst run)) = Some addressState
    /\ currentStep (state (fst run)) = Z.max (currentStep (state w)) 5
    /\ error (state (fst run)) = error (state w)
    /\ inflight (fst run)
       = (inflight w
          ++ [AwaitProof (token j) extendedPublicKey (maxEpoch k) (randomness k)
                         (prop "salt" saltState)])%list.
Proof.
  intros w fields rpc k j saltState epk Hk Hj Hs Htruthy Hepk run balance
         addressState.
  subst run balance addressState.
  assert (Hmember : member "salt" (Some saltState) = Ok (prop "salt" saltState))
    by (destruct saltState; try reflexivity; discriminate).
  wp_here. unfold generateAddress_resume.
  destruct rpc as [total | e]; cbn [getAddressBalance];
    repeat wp_step; rewrite Hk; repeat wp_step; rewrite Hj; repeat wp_step;
    rewrite Hs; cbn [present]; rewrite Htruthy; cbn [negb]; repeat wp_step;
    rewrite Hepk; repeat wp_step; rewrite Hmember; repeat wp_step;
    repeat split.
Qed.

End RestorationMore.



(** C5, at a record the code leaves. The client is configured with the
    empty prefix and the durable store holds a record under the key
    ['length']. That key starts with the prefix, yet after [reset()] the
    record is still there: [Object.keys(localStorage)] does not list a key
    named after a member of [Storage.prototype], so the loop of [clear()]
    never sees it. *)
Lemma reset_leaves_shadowed_record :
  exists w,
    construct example_platform empty_prefix_config
      (example_browser [("length", "v")] []) tt 0 = Ok w
    /\ String.prefix (r_storagePrefix (config w)) "length" = true
    /\ snd (reset w) = Ok tt
    /\ stored_local (browser (fst (reset w))) "length" = Some "v".
Proof. eexists. split; [vm_compute; reflexivity |]. vm_compute. auto. Qed.

(* ===================================================================== *)
(** ** Concrete runs of the further properties *)
(* ===================================================================== *)

(** X3, a concrete run. [clear()] on a store with prefix ['zklogin_']
    removes the salt record of a store with prefix ['zklogin_plus_']. *)
Lemma browser_store_clear_scope_witness :
  String.prefix "zklogin_" "zklogin_plus_" = true
  /\ BrowserStorage.get "zklogin_plus_" "user_salt"
       (BrowserStorage.clear "zklogin_"
          (example_browser [("zklogin_plus_user_salt", "1")] []))
     = None.
Proof.
  split; [reflexivity |].
  destruct (browser_store_clear_scope "zklogin_" "zklogin_plus_" "user_salt"
              (example_browser [("zklogin_plus_user_salt", "1")] []) eq_refl)
    as [Hgone _].
  apply Hgone. reflexivity.
Defined.

(** X6, a concrete run. A fourth listener subscribed to [ready] on the
    example bus and unsubscribed again leaves the three listeners that were
    there. *)
Lemma off_undoes_one_on_witness :
  indexOf (logger 4 false) (default [] (listeners example_bus !! "ready")) = None
  /\ default [] (listeners
                   (fst (off "ready" (logger 4 false)
                           (fst (on "ready" (logger 4 false) example_bus))))
                 !! "ready")
     = default [] (listeners example_bus !! "ready").
Proof.
  split; [vm_compute; reflexivity |].
  destruct (off_undoes_one_on "ready" (logger 4 false) example_bus) as [Hown _].
  - vm_compute. reflexivity.
  - apply Hown. reflexivity.
Defined.


(** X16, a concrete run. [requestTestTokens] on a fresh client fails at the call, for want of an
    address. *)
Lemma requestTestTokens_failure_witness :
  exists message,
    error (state (fst (void requestTestTokens_begin example_world))) = Some message
    /\ currentStep (state (fst (void requestTestTokens_begin example_world))) = 0.
Proof.
  edestruct (requestTestTokens_failure example_world None)
    as (message & _ & Herr & _ & Hstep & _).
  - vm_compute. reflexivity.
  - exists message. split; [exact Herr | exact Hstep].
Defined.

(** X17, a concrete run. [generateAddress] on a fresh client fails and leaves the stores alone. *)
Lemma failed_step_changes_nothing_else_witness :
  browser (fst (run_step example_platform Step5_call example_world))
  = browser example_world.
Proof.
  edestruct (failed_step_changes_nothing_else example_platform Step5_call
               example_world) as (Hb & _).
  - vm_compute. reflexivity.
  - exact Hb.
Defined.

(** X18, a concrete run. The last part of [executeTransaction], when the chain reports a
    digest. *)
Lemma executeTransaction_leaves_state_witness :
  state (fst (run_step example_platform (Step7_executed (Ok "digest")) example_world))
  = state example_world.
Proof.
  apply (executeTransaction_leaves_state example_platform
           (Step7_executed (Ok "digest")) example_world);
    vm_compute; reflexivity.
Defined.

(** X19, a concrete run. A callback URL carrying the token ["good"] in its fragment. *)
Lemma handleOAuthCallback_succeeds_witness :
  exists j,
    snd (handleOAuthCallback reload_platform (Some "https://app/cb#id_token=good")
           0 example_world) = Ok j
    /\ jwt (state (fst (handleOAuthCallback reload_platform
                          (Some "https://app/cb#id_token=good") 0 example_world)))
       = Some j
    /\ inflight (fst (handleOAuthCallback reload_platform
                        (Some "https://app/cb#id_token=good") 0 example_world))
       = [AwaitEpoch; AwaitSalt (Some "good")].
Proof.
  eexists. split; [vm_compute; reflexivity |].
  edestruct (handleOAuthCallback_succeeds reload_platform example_world
               (Some "https://app/cb#id_token=good") 0)
    as (id_token & Htok & _ & _ & Hjwt & _ & _ & Hin).
  - vm_compute. reflexivity.
  - split; [exact Hjwt |].
    assert (Hid : id_token = "good") by (vm_compute in Htok; congruence).
    rewrite Hin, Hid. reflexivity.
Defined.

(** X20, a concrete run. The salt service answers a fresh client, which holds no token. *)
Lemma chained_failure_is_swallowed_witness :
  userSalt (state (fst (generateSalt_resume example_platform
                          (Ok (JObj [("data", JObj [("salt", JStr "1")])])) 0
                          example_world)))
  = Some salt_record
  /\ currentStep (state (fst (generateSalt_resume example_platform
                                (Ok (JObj [("data", JObj [("salt", JStr "1")])])) 0
                                example_world)))
     = 5.
Proof.
  destruct (chained_failure_is_swallowed example_platform example_world
              (Ok (JObj [("data", JObj [("salt", JStr "1")])])) 0
              (Some (JStr "1")) eq_refl eq_refl)
    as (_ & Hsalt & _ & Hstep & _).
  split; [exact Hsalt | exact Hstep].
Defined.

(** X22, a concrete run. A call of [generateSalt] on the client restored from a proof record. *)
Lemma only_reset_removes_witness :
  fst (generateSalt_begin proof_only_world) = fst (reset proof_only_world)
  \/ persists (state proof_only_world)
              (state (fst (generateSalt_begin proof_only_world))).
Proof.
  apply (only_reset_removes example_platform proof_only_world).
  apply step_generateSalt.
Defined.

(** X24, a concrete run. Construction over a store that holds a salt record. *)
Lemma construct_silent_and_only_removes_witness :
  emitted salt_only_world = [] /\ error (state salt_only_world) = None.
Proof.
  edestruct (construct_silent_and_only_removes example_platform example_config
               (example_browser [("zklogin_plus_user_salt", salt_record_text)] [])
               tt 0 salt_only_world)
    as (Hem & Herr & _).
  - vm_compute. reflexivity.
  - split; [exact Hem | exact Herr].
Defined.

(** X25, a concrete run. The ephemeral store holds key material whose secret key the key library
    rejects, and the durable store holds a salt record. *)
Lemma restoration_abandoned_on_rejected_key_witness :
  construct example_platform example_config
    (example_browser
       [("zklogin_plus_user_salt", salt_record_text)]
       [("zklogin_plus_ephemeral_keypair", "bad");
        ("zklogin_plus_max_epoch", "5");
        ("zklogin_plus_randomness", "r")]) tt 0
  = Ok (mkWorld (fill_config example_config) initial_state
          (example_browser
             [("zklogin_plus_user_salt", salt_record_text)]
             [("zklogin_plus_ephemeral_keypair", "bad");
              ("zklogin_plus_max_epoch", "5");
              ("zklogin_plus_randomness", "r")])
          (mkBus ∅ tt []) [] []).
Proof.
  apply (restoration_abandoned_on_rejected_key example_platform example_config);
    vm_compute; reflexivity.
Defined.

(** X26, a concrete run. The stores hold a proof record and a salt record: step 6 is earned. *)
Lemma restoration_earns_steps_witness :
  exists w,
    construct example_platform example_config
      (example_browser [("zklogin_plus_user_salt", salt_record_text)]
                       [("zklogin_plus_zk_proof", "{}")]) tt 0
    = Ok w
    /\ currentStep (state w) = 6
    /\ isReady (state w) = true.
Proof.
  destruct (restoration_earns_steps example_platform example_config
              (example_browser [("zklogin_plus_user_salt", salt_record_text)]
                               [("zklogin_plus_zk_proof", "{}")]) tt 0)
    as (w & Hw & Hstep & Hready & _).
  - reflexivity.
  - vm_compute. reflexivity.
  - exists w. split; [exact Hw |]. split.
    + rewrite Hstep. vm_compute. reflexivity.
    + rewrite Hready. vm_compute. reflexivity.
Defined.

(** X27, a concrete run. Step 1 at epoch 7 in the example browser, then a reload. *)
Lemma key_material_survives_reload_witness :
  exists w2,
    construct reload_platform example_config
      (browser (fst (generateEphemeralKeyPair_resume reload_platform (Ok 7)
                       (mkKeypair "sk" "pk") "r" example_world))) tt 0
    = Ok w2
    /\ ephemeralKeyPair (state w2)
       = Some (mkEphemeralKeyPairState (mkKeypair "sk" "pk") 17 "r" "")
    /\ inflight w2 = [].
Proof.
  apply (key_material_survives_reload reload_platform example_world
           (mkWindow ∅ ∅ "https://app/") 7 (mkKeypair "sk" "pk") "r"
           example_config tt 0);
    first [discriminate | vm_compute; reflexivity].
Defined.

(** X28, a concrete run. The salt service answers a client that holds the token ["good"]. *)
Lemma salt_success_starts_address_witness :
  inflight (fst (generateSalt_resume example_platform
                   (Ok (JObj [("data", JObj [("salt", JStr "1")])])) 0
                   address_world))
  = [AwaitBalance (JObj [("address", JStr "0xaddress");
                         ("addressSeed", JStr "seed")])].
Proof.
  apply (salt_success_starts_address example_platform address_world
           (Ok (JObj [("data", JObj [("salt", JStr "1")])])) 0
           (Some (JStr "1"))
           (mkJwtState "good"
              (mkJwtPayload (Some 100) (Some "user") (Some (AudString "app")))
              true 100000)
           (JObj [("address", JStr "0xaddress"); ("addressSeed", JStr "seed")]));
    reflexivity.
Defined.

(** X29, a concrete run. The balance lookup fails for a client that holds key material, a token
    and a salt. *)
Lemma address_success_starts_proof_witness :
  snd (generateAddress_resume example_platform
         (JObj [("address", JStr "0xaddress"); ("addressSeed", JStr "seed")])
         (Throw (Foreign "network")) keyed_world)
  = Ok (JObj [("address", JStr "0xaddress"); ("addressSeed", JStr "seed");
              ("balance", JStr "0")])
  /\ inflight (fst (generateAddress_resume example_platform
                      (JObj [("address", JStr "0xaddress");
                             ("addressSeed", JStr "seed")])
                      (Throw (Foreign "network")) keyed_world))
     = [AwaitProof "good" "pk" 17 "r" (Some (JStr "1"))].
Proof.
  destruct (address_success_starts_proof example_platform keyed_world
              [("address", JStr "0xaddress"); ("addressSeed", JStr "seed")]
              (Throw (Foreign "network"))
              (mkEphemeralKeyPairState (mkKeypair "sk" "pk") 17 "r" "nonce")
              (mkJwtState "good"
                 (mkJwtPayload (Some 100) (Some "user") (Some (AudString "app")))
                 true 100000)
              salt_record "pk" eq_refl eq_refl eq_refl eq_refl eq_refl)
    as (Hret & _ & _ & _ & Hin).
  split; [exact Hret | exact Hin].
Defined.
